(** * Versioning-state engine of the object storage server

    Shallow embedding of [lib/api/apiUtils/object/versioning.js]:
    the master-state extractor [getMasterState], the policy engine
    [processVersioningState], the write orchestrator
    [versioningPreprocessing] with its three sequential steps, and the
    delete decision [preprocessingVersioningDelete]. *)

From Stdlib Require Import String List ZArith Bool DecimalString Sorting.Sorted Lia.
Import ListNotations.
Local Open Scope string_scope.

(** ** JavaScript values

    Object metadata is "parsed from JSON", so a value is one of the JSON
    shapes, plus [undefined] for what a property read gives when the
    property is missing.  Numbers are restricted to the integers. *)

#[warnings="-register-all"]
Inductive jsval : Type :=
| JUndefined
| JNull
| JBool (b : bool)
| JNum (n : Z)
| JStr (s : string)
| JArr (elems : list jsval)
| JObj (fields : list (string * jsval)).

(** An object is its list of own properties, in insertion order. *)
Definition obj : Type := list (string * jsval).

(** [ToBoolean]: what [if (v)], [!v] and [a || b] look at. *)
Definition truthy (v : jsval) : bool :=
  match v with
  | JUndefined | JNull => false
  | JBool b => b
  | JNum n => negb (n =? 0)%Z
  | JStr s => negb (s =? "")
  | JArr _ | JObj _ => true
  end.

(** [a === b].  Primitives compare by value.  Arrays and objects compare
    by reference; two values read from different places of a parsed JSON
    document are never the same reference, so they are never [===]. *)
Definition strict_eq (a b : jsval) : bool :=
  match a, b with
  | JUndefined, JUndefined => true
  | JNull, JNull => true
  | JBool x, JBool y => Bool.eqb x y
  | JNum x, JNum y => (x =? y)%Z
  | JStr x, JStr y => (x =? y)
  | _, _ => false
  end.

Definition isArray (v : jsval) : bool :=
  match v with JArr _ => true | _ => false end.

(** [o.k] on an object: the first binding of [k], [undefined] if none. *)
Fixpoint lookup (k : string) (o : obj) : jsval :=
  match o with
  | [] => JUndefined
  | (k', v) :: rest => if k =? k' then v else lookup k rest
  end.

(** [v.k] for a value [v] that is neither [undefined] nor [null] (where
    the read throws; every use below is behind a truthiness test or on a
    value typed as an object).  None of the property names read by this
    file is defined on the prototypes of strings, numbers, booleans or
    arrays, so only objects answer. *)
Definition get_prop (v : jsval) (k : string) : jsval :=
  match v with
  | JObj fields => lookup k fields
  | _ => JUndefined
  end.

(** [o.k = v]: overwrite in place, or append. *)
Fixpoint set_prop (k : string) (v : jsval) (o : obj) : obj :=
  match o with
  | [] => [(k, v)]
  | (k', v') :: rest =>
      if k =? k' then (k, v) :: rest else (k', v') :: set_prop k v rest
  end.

Definition index_name (n : nat) : string :=
  NilEmpty.string_of_uint (Nat.to_uint n).

Fixpoint indexed {A : Type} (f : A -> jsval) (n : nat) (l : list A) : obj :=
  match l with
  | [] => []
  | x :: rest => (index_name n, f x) :: indexed f (S n) rest
  end.

Definition chars (s : string) : list string :=
  map (fun c => String c EmptyString) (list_ascii_of_string s).

(** The own enumerable properties [Object.assign] copies from a source. *)
Definition own_props (v : jsval) : obj :=
  match v with
  | JObj fields => fields
  | JArr elems => indexed (fun x => x) 0 elems
  | JStr s => indexed JStr 0 (chars s)
  | _ => []
  end.

(** [Object.assign(target, source)] on own-property lists. *)
Definition assign (target source : obj) : obj :=
  fold_left (fun t kv => set_prop (fst kv) (snd kv) t) source target.

(** ** Data model

    The option objects have a fixed set of properties; a record field
    holding [JUndefined] stands for a property that was never assigned
    (or was assigned [undefined]: no read in this file tells the two
    apart). *)

(** Result of [getMasterState]. *)
Record MasterState : Type := mkMasterState {
  mst_exists : jsval;
  mst_versionId : jsval;
  mst_uploadId : jsval;
  mst_isNull : jsval;
  mst_isNullKey : jsval;
  mst_nullVersionId : jsval;
  mst_nullUploadId : jsval;
  mst_objLocation : jsval
}.

(** [options]: what the caller passes to the metadata store on the put. *)
Record Options : Type := mkOptions {
  opt_versionId : jsval;
  opt_isNull : jsval;
  opt_dataToDelete : jsval;
  opt_versioning : jsval
}.

Record StoreOptions : Type := mkStoreOptions {
  sto_versionId : jsval;
  sto_isNullKey : jsval
}.

Record DelOptions : Type := mkDelOptions {
  del_versionId : jsval;
  del_deleteData : jsval;
  del_replayId : jsval
}.

(** The object returned by [processVersioningState]:
    [{ options }], [{ options, storeOptions }], [{ options, delOptions }]
    or [{ options, storeOptions, delOptions }]. *)
Record Decision : Type := mkDecision {
  options : Options;
  storeOptions : option StoreOptions;
  delOptions : option DelOptions
}.

(** [const options = {}] and friends. *)
Definition empty_options : Options :=
  mkOptions JUndefined JUndefined JUndefined JUndefined.
Definition empty_mst : MasterState :=
  mkMasterState JUndefined JUndefined JUndefined JUndefined
                JUndefined JUndefined JUndefined JUndefined.

Definition set_dataToDelete (o : Options) (v : jsval) : Options :=
  mkOptions (opt_versionId o) (opt_isNull o) v (opt_versioning o).

(** Options of the delete path, as built by
    [preprocessingVersioningDelete]. *)
Record DeleteDecision : Type := mkDeleteDecision {
  dd_deleteData : jsval;
  dd_replayId : jsval;
  dd_versionId : jsval;
  dd_isNull : jsval
}.

(** Bucket metadata, seen through its one accessor used here. *)
Record BucketInfo : Type := mkBucketInfo {
  getVersioningConfiguration : jsval
}.

(** ** Master state extractor *)

Definition getMasterState (objMD : jsval) : MasterState :=
  if negb (truthy objMD) then empty_mst
  else
    let location := get_prop objMD "location" in
    {| mst_exists := JBool true;
       mst_versionId := get_prop objMD "versionId";
       mst_uploadId := get_prop objMD "uploadId";
       mst_isNull := get_prop objMD "isNull";
       mst_isNullKey := get_prop objMD "isNullKey";
       mst_nullVersionId := get_prop objMD "nullVersionId";
       mst_nullUploadId := get_prop objMD "nullUploadId";
       mst_objLocation :=
         if truthy location
         then (if isArray location then location else JArr [location])
         else JUndefined |}.

(** ** Versioning policy engine *)

Section PolicyEngine.

(** [versionIdUtils.getInfVid(config.replicationGroupId)]: the version id
    used for null versions created before versioning was configured.  The
    codec and the configuration live outside this file. *)
Variable nonVersionedObjId : string.

Definition processVersioningState (mst : MasterState) (vstat : jsval)
  : Decision :=
  if truthy (mst_isNullKey mst) || truthy (mst_isNull mst)
     || negb (truthy (mst_versionId mst))
  then
    if strict_eq vstat (JStr "Suspended") then
      let options :=
        {| opt_versionId := JStr "";
           opt_isNull := JBool true;
           opt_dataToDelete := mst_objLocation mst;
           opt_versioning := JUndefined |} in
      if truthy (mst_isNull mst) then
        mkDecision options None
          (Some (mkDelOptions (mst_versionId mst) JUndefined JUndefined))
      else if truthy (mst_isNullKey mst) then
        mkDecision options None
          (Some (mkDelOptions (JStr "null") JUndefined JUndefined))
      else mkDecision options None None
    else
      let options :=
        mkOptions JUndefined JUndefined JUndefined (JBool true) in
      if truthy (mst_exists mst) then
        mkDecision options
          (Some {| sto_versionId :=
                     if truthy (mst_isNull mst) || truthy (mst_isNullKey mst)
                     then mst_versionId mst
                     else JStr nonVersionedObjId;
                   sto_isNullKey := JBool true |})
          None
      else mkDecision options None None
  else
    let options :=
      if strict_eq vstat (JStr "Suspended")
      then mkOptions (JStr "") (JBool true) JUndefined JUndefined
      else mkOptions JUndefined JUndefined JUndefined (JBool true) in
    let nullVersionId := mst_nullVersionId mst in
    if truthy nullVersionId then
      if strict_eq vstat (JStr "Suspended") then
        mkDecision options None
          (Some {| del_versionId := nullVersionId;
                   del_deleteData := JBool true;
                   del_replayId :=
                     if truthy (mst_nullUploadId mst)
                     then mst_nullUploadId mst else JUndefined |})
      else
        mkDecision options
          (Some (mkStoreOptions nullVersionId (JBool true)))
          (Some (mkDelOptions nullVersionId JUndefined JUndefined))
    else if strict_eq vstat (JStr "Suspended") then
      mkDecision options None
        (Some (mkDelOptions (JStr "null") (JBool true) JUndefined))
    else mkDecision options None None.

End PolicyEngine.

(** ** Delete preprocessing

    [objectMD] is documented as an object and is read without a guard, so
    it is typed as one; [reqVersionId] is optional.  The function hands
    its options to the callback with a null error: the options are the
    result. *)

Definition empty_deleteDecision : DeleteDecision :=
  mkDeleteDecision JUndefined JUndefined JUndefined JUndefined.

Definition set_dd_deleteData (o : DeleteDecision) (v : jsval) :=
  mkDeleteDecision v (dd_replayId o) (dd_versionId o) (dd_isNull o).
Definition set_dd_replayId (o : DeleteDecision) (v : jsval) :=
  mkDeleteDecision (dd_deleteData o) v (dd_versionId o) (dd_isNull o).
Definition set_dd_versionId (o : DeleteDecision) (v : jsval) :=
  mkDeleteDecision (dd_deleteData o) (dd_replayId o) v (dd_isNull o).
Definition set_dd_isNull (o : DeleteDecision) (v : jsval) :=
  mkDeleteDecision (dd_deleteData o) (dd_replayId o) (dd_versionId o) v.

Definition preprocessingVersioningDelete (bucketMD : BucketInfo)
    (objectMD : obj) (reqVersionId : jsval) : DeleteDecision :=
  let options := empty_deleteDecision in
  let options :=
    if negb (truthy (getVersioningConfiguration bucketMD))
       || truthy reqVersionId
    then
      let options := set_dd_deleteData options (JBool true) in
      if truthy (lookup "uploadId" objectMD)
      then set_dd_replayId options (lookup "uploadId" objectMD)
      else options
    else options in
  if truthy (getVersioningConfiguration bucketMD) then
    if truthy reqVersionId then
      if strict_eq reqVersionId (JStr "null") then
        if negb (strict_eq (lookup "versionId" objectMD) JUndefined) then
          if truthy (lookup "isNull" objectMD)
          then set_dd_versionId options (lookup "versionId" objectMD)
          else set_dd_versionId options (JStr "null")
        else options
      else set_dd_versionId options reqVersionId
    else set_dd_isNull options (JBool true)
  else options.

(** ** Write preprocessing orchestrator *)

(** Errors of the metadata layer carry a type name; [err.is.NoSuchKey]
    tests it. *)
Record ArsenalError : Type := mkError { err_type : string }.

Definition is_NoSuchKey (e : ArsenalError) : bool :=
  err_type e =? "NoSuchKey".

Definition InternalError : ArsenalError := mkError "InternalError".

(** What the function does to the outside, in order. *)
Inductive event : Type :=
| EvPut (bucketName objKey : string) (objMD params : obj)
| EvGet (bucketName objKey : string) (opts : DelOptions)
| EvDelete (bucketName objKey : string) (opts : DelOptions)
| EvLog (level message : string) (err : ArsenalError).

(** The metadata wrapper is an external service: its three calls answer
    from, and change, a store this file knows nothing about. *)
Record MetadataWrapper (Store : Type) : Type := mkMetadata {
  putObjectMD :
    string -> string -> obj -> obj -> Store -> option ArsenalError * Store;
  getObjectMD :
    string -> string -> DelOptions -> Store -> (ArsenalError + obj) * Store;
  deleteObjectMD :
    string -> string -> DelOptions -> Store -> option ArsenalError * Store
}.
Arguments putObjectMD {Store}.
Arguments getObjectMD {Store}.
Arguments deleteObjectMD {Store}.

Record World (Store : Type) : Type := mkWorld {
  md : Store;
  trace : list event
}.
Arguments mkWorld {Store}.
Arguments md {Store}.
Arguments trace {Store}.

Section Orchestrator.

Variable nonVersionedObjId : string.
Variable Store : Type.
Variable metadata : MetadataWrapper Store.

(** Callback-passing code run to completion: a computation takes the
    world and gives what it hands to its callback, and the new world. *)
Definition M (A : Type) : Type := World Store -> A * World Store.

Definition ret {A : Type} (a : A) : M A := fun w => (a, w).

Definition bind {A B : Type} (m : M A) (k : A -> M B) : M B :=
  fun w => let (a, w') := m w in k a w'.

Notation "x <- m ;; k" := (bind m (fun x => k))
  (at level 61, m at next level, right associativity).
Notation "m ;; k" := (bind m (fun _ => k))
  (at level 61, right associativity).

Definition emit (e : event) : M unit :=
  fun w => (tt, mkWorld (md w) (trace w ++ [e])).

Definition call {A : Type} (e : event) (f : Store -> A * Store) : M A :=
  fun w => let (a, s) := f (md w) in (a, mkWorld s (trace w ++ [e])).

Definition nullKeyParams : obj := [("versionId", JStr "null")].

Definition _storeNullVersionMD (bucketName objKey : string) (objMD : obj)
  : M (option ArsenalError) :=
  err <- call (EvPut bucketName objKey objMD nullKeyParams)
              (putObjectMD metadata bucketName objKey objMD nullKeyParams) ;;
  match err with
  | Some e =>
      emit (EvLog "debug"
              "error from metadata storing null version as new version" e) ;;
      ret err
  | None => ret err
  end.

(** Calls back with [(err, dataToDelete)]. *)
Definition _getNullVersionLocationsToDelete (bucketName objKey : string)
    (opts : DelOptions) (mst : MasterState)
  : M (option ArsenalError * jsval) :=
  if strict_eq (del_versionId opts) (mst_versionId mst) then
    ret (None, mst_objLocation mst)
  else
    r <- call (EvGet bucketName objKey opts)
              (getObjectMD metadata bucketName objKey opts) ;;
    match r with
    | inl err =>
        if negb (is_NoSuchKey err) then
          emit (EvLog "warn" "could not get null version metadata" err) ;;
          ret (Some err, JUndefined)
        else ret (None, JUndefined)
    | inr versionMD =>
        let location := lookup "location" versionMD in
        if negb (truthy location) then ret (None, JUndefined)
        else ret (None, if isArray location then location
                        else JArr [location])
    end.

Definition _deleteNullVersionMD (bucketName objKey : string)
    (opts : DelOptions) : M (option ArsenalError) :=
  err <- call (EvDelete bucketName objKey opts)
              (deleteObjectMD metadata bucketName objKey opts) ;;
  match err with
  | Some e =>
      emit (EvLog "warn" "metadata error deleting null version" e) ;;
      ret err
  | None => ret None
  end.

(** A task of [async.series] here: it may update the shared [options]
    object and calls [next] with an error or none. *)
Definition task : Type := Options -> M (option ArsenalError * Options).

(** [async.series]: run the tasks in order; the first error ends the
    series and goes to the final callback. *)
Fixpoint series (tasks : list task) (o : Options)
  : M (option ArsenalError * Options) :=
  match tasks with
  | [] => ret (None, o)
  | t :: rest =>
      r <- t o ;;
      match r with
      | (Some e, o') => ret (Some e, o')
      | (None, o') => series rest o'
      end
  end.

Definition storeOptions_props (so : StoreOptions) : obj :=
  [("versionId", sto_versionId so); ("isNullKey", sto_isNullKey so)].

Definition storeVersion (bucketName objectKey : string) (objMD : jsval)
    (storeOptions : option StoreOptions) : task :=
  fun o =>
    match storeOptions with
    | None => ret (None, o)
    | Some so =>
        let versionMD :=
          assign (assign [] (own_props objMD)) (storeOptions_props so) in
        err <- _storeNullVersionMD bucketName objectKey versionMD ;;
        ret (err, o)
    end.

Definition getNullVersionLocationsToDelete (bucketName objectKey : string)
    (mst : MasterState) (delOptions : option DelOptions) : task :=
  fun o =>
    match delOptions with
    | None => ret (None, o)
    | Some d =>
        if negb (truthy (del_deleteData d)) then ret (None, o)
        else
          r <- _getNullVersionLocationsToDelete bucketName objectKey d mst ;;
          match r with
          | (Some err, _) => ret (Some err, o)
          | (None, nullDataToDelete) =>
              if truthy nullDataToDelete
              then ret (None, set_dataToDelete o nullDataToDelete)
              else ret (None, o)
          end
    end.

Definition deleteNullVersion (bucketName objectKey : string)
    (delOptions : option DelOptions) : task :=
  fun o =>
    match delOptions with
    | None => ret (None, o)
    | Some d =>
        err <- _deleteNullVersionMD bucketName objectKey d ;;
        match err with
        | Some e =>
            if is_NoSuchKey e then ret (None, o)
            else ret (Some InternalError, o)
        | None => ret (None, o)
        end
    end.

(** Calls back with [(err, options)]. *)
Definition versioningPreprocessing (bucketName : string)
    (bucketMD : BucketInfo) (objectKey : string) (objMD : jsval)
  : M (option ArsenalError * Options) :=
  let mst := getMasterState objMD in
  let vCfg := getVersioningConfiguration bucketMD in
  if negb (truthy vCfg) then
    ret (None, set_dataToDelete empty_options (mst_objLocation mst))
  else
    let d := processVersioningState nonVersionedObjId mst
               (get_prop vCfg "Status") in
    series [ storeVersion bucketName objectKey objMD (storeOptions d);
             getNullVersionLocationsToDelete bucketName objectKey mst
               (delOptions d);
             deleteNullVersion bucketName objectKey (delOptions d) ]
           (options d).

End Orchestrator.

Arguments _storeNullVersionMD {Store}.
Arguments _getNullVersionLocationsToDelete {Store}.
Arguments _deleteNullVersionMD {Store}.
Arguments series {Store}.
Arguments storeVersion {Store}.
Arguments getNullVersionLocationsToDelete {Store}.
Arguments deleteNullVersion {Store}.
Arguments versioningPreprocessing nonVersionedObjId {Store}.

(** ** Example inputs and stores *)

(** A legacy null master with one data location. *)
Definition legacy_null_master : MasterState :=
  {| mst_exists := JBool true;
     mst_versionId := JStr "v1";
     mst_uploadId := JUndefined;
     mst_isNull := JBool true;
     mst_isNullKey := JUndefined;
     mst_nullVersionId := JUndefined;
     mst_nullUploadId := JUndefined;
     mst_objLocation := JArr [JStr "loc1"] |}.

(** An object written before versioning was configured: no version id,
    no null flags. *)
Definition pre_versioning_master : MasterState :=
  {| mst_exists := JBool true;
     mst_versionId := JUndefined;
     mst_uploadId := JUndefined;
     mst_isNull := JUndefined;
     mst_isNullKey := JUndefined;
     mst_nullVersionId := JUndefined;
     mst_nullUploadId := JUndefined;
     mst_objLocation := JArr [JStr "loc1"] |}.

(** A real version that still refers to a legacy null version. *)
Definition versioned_master (nullVersionId nullUploadId : jsval)
  : MasterState :=
  {| mst_exists := JBool true;
     mst_versionId := JStr "v2";
     mst_uploadId := JUndefined;
     mst_isNull := JUndefined;
     mst_isNullKey := JUndefined;
     mst_nullVersionId := nullVersionId;
     mst_nullUploadId := nullUploadId;
     mst_objLocation := JArr [JStr "loc2"] |}.

Definition versioned_bucket : BucketInfo :=
  mkBucketInfo (JObj [("Status", JStr "Enabled")]).

Definition suspended_bucket : BucketInfo :=
  mkBucketInfo (JObj [("Status", JStr "Suspended")]).

Definition pre_versioning_object : jsval :=
  JObj [("content-length", JNum 3); ("location", JStr "loc1")].

Definition versioned_object : jsval :=
  JObj [("versionId", JStr "v2"); ("location", JStr "loc2")].

(** An in-memory metadata store to run the orchestrator on examples: the
    version slots of one object key, each holding a metadata record.  A
    read or a delete of a missing slot answers [NoSuchKey]. *)
Definition MemStore : Type := list (jsval * obj).

Fixpoint mem_find (slot : jsval) (s : MemStore) : option obj :=
  match s with
  | [] => None
  | (slot', md) :: rest =>
      if strict_eq slot slot' then Some md else mem_find slot rest
  end.

Fixpoint mem_remove (slot : jsval) (s : MemStore) : MemStore :=
  match s with
  | [] => []
  | (slot', md) :: rest =>
      if strict_eq slot slot' then rest else (slot', md) :: mem_remove slot rest
  end.

Definition memory_metadata : MetadataWrapper MemStore :=
  {| putObjectMD := fun _ _ objMD params s =>
       (None, (lookup "versionId" params, objMD) :: s);
     getObjectMD := fun _ _ opts s =>
       match mem_find (del_versionId opts) s with
       | Some md => (inr md, s)
       | None => (inl (mkError "NoSuchKey"), s)
       end;
     deleteObjectMD := fun _ _ opts s =>
       match mem_find (del_versionId opts) s with
       | Some _ => (None, mem_remove (del_versionId opts) s)
       | None => (Some (mkError "NoSuchKey"), s)
       end |}.

(** A metadata store that is down: every call fails. *)
Definition unavailable_metadata : MetadataWrapper MemStore :=
  {| putObjectMD := fun _ _ _ _ s => (Some (mkError "ServiceUnavailable"), s);
     getObjectMD := fun _ _ _ s => (inl (mkError "ServiceUnavailable"), s);
     deleteObjectMD := fun _ _ _ s =>
       (Some (mkError "ServiceUnavailable"), s) |}.

(** ** Request and response helpers *)

Definition InvalidArgument : ArsenalError := mkError "InvalidArgument".

(** [errors.X.customizeDescription(msg)]: the error with a description of
    its own. *)
Record CustomizedError : Type := mkCustomized {
  ce_error : ArsenalError;
  ce_description : string
}.

Definition customizeDescription (e : ArsenalError) (description : string)
  : CustomizedError := mkCustomized e description.

Section VersionIdCodec.

(** [versionIdUtils.decode] gives an [Error] instance or the decoded
    version id; [versionIdUtils.encode] takes the version id and
    [config.versionIdEncodingType].  Both live outside this file. *)
Variable CodecError : Type.
Variable decode : jsval -> CodecError + jsval.
Variable encode : jsval -> jsval -> jsval.
Variable versionIdEncodingType : jsval.

(** Returns an error, or [undefined], or the version id. *)
Definition decodeVersionId (reqQuery : jsval) : CustomizedError + jsval :=
  if negb (truthy reqQuery) || negb (truthy (get_prop reqQuery "versionId"))
  then inr JUndefined
  else
    let versionId := get_prop reqQuery "versionId" in
    if strict_eq versionId (JStr "null") then inr versionId
    else
      match decode versionId with
      | inl _ =>
          inl (customizeDescription InvalidArgument
                 "Invalid version id specified")
      | inr decoded => inr decoded
      end.

(** [objectMD] is read without a guard: it is an object. *)
Definition getVersionIdResHeader (verCfg : jsval) (objectMD : obj) : jsval :=
  if truthy verCfg then
    if truthy (lookup "isNullKey" objectMD) || truthy (lookup "isNull" objectMD)
       || negb (truthy (lookup "versionId" objectMD))
    then JStr "null"
    else encode (lookup "versionId" objectMD) versionIdEncodingType
  else JUndefined.

End VersionIdCodec.

Arguments decodeVersionId {CodecError}.

Definition checkQueryVersionId (query : jsval) : option CustomizedError :=
  if truthy query
     && negb (strict_eq (get_prop query "versionId") JUndefined)
  then Some (customizeDescription InvalidArgument
               "This operation does not accept a version-id.")
  else None.

(** ** Monitoring: metrics

    Shallow embedding of [lib/utilities/monitoringHandler.js].  The
    metric objects belong to the metrics client; a function of this file
    is the sequence of calls it makes on them. *)

Inductive metric : Type :=
| numberOfBuckets
| numberOfObjects
| lastReportTimestamp
| numberOfIngestedObjects
| dataIngested
| dataDiskAvailable
| dataDiskFree
| dataDiskTotal
| httpRequestSizeBytes
| httpResponseSizeBytes.

(** A call without argument passes [undefined]. *)
Inductive metric_call : Type :=
| Inc (m : metric) (value : jsval)
| Dec (m : metric) (value : jsval)
| SetTo (m : metric) (value : jsval)
| SetToCurrentTime (m : metric)
| Observe (m : metric) (labels : list jsval) (value : jsval).

(** [a || b] as a value. *)
Definition js_or (a b : jsval) : jsval := if truthy a then a else b.

Definition is_action (action : jsval) (names : list string) : bool :=
  existsb (fun name => strict_eq action (JStr name)) names.

(** The byte lengths are numbers, the old one possibly [null] (no
    previous object), which counts as 0 in the subtraction; the other
    arguments are passed on as they come.  [bucketName] is not used. *)
Definition promMetrics (method bucketName code action : jsval)
    (newByteLength : Z) (oldByteLength : option Z)
    (isVersionedObj numOfObjectsRemoved ingestSize : jsval)
  : list metric_call :=
  if is_action action ["putObject"; "copyObject"; "putObjectPart"] then
    if strict_eq code (JStr "200") then
      let bytes :=
        (newByteLength -
         (if truthy isVersionedObj then 0
          else match oldByteLength with Some n => n | None => 0 end))%Z in
      [ Observe httpRequestSizeBytes [method; action; code]
          (JNum newByteLength);
        Dec dataDiskAvailable (JNum bytes);
        Dec dataDiskFree (JNum bytes) ]
      ++ (if truthy ingestSize
          then [Inc numberOfIngestedObjects JUndefined;
                Inc dataIngested ingestSize]
          else [])
      ++ [Inc numberOfObjects JUndefined]
    else []
  else if is_action action ["createBucket"] then
    if strict_eq code (JStr "200") then [Inc numberOfBuckets JUndefined]
    else []
  else if is_action action ["getObject"] then
    if strict_eq code (JStr "200")
    then [Observe httpResponseSizeBytes [method; action; code]
            (JNum newByteLength)]
    else []
  else if is_action action ["deleteBucket"; "deleteBucketWebsite"] then
    if strict_eq code (JStr "200") || strict_eq code (JStr "204")
    then [Dec numberOfBuckets JUndefined]
    else []
  else if is_action action
            ["deleteObject"; "abortMultipartUpload"; "multiObjectDelete"] then
    if strict_eq code (JStr "200") then
      let objs := js_or numOfObjectsRemoved (JNum 1) in
      [ Inc dataDiskAvailable (JNum newByteLength);
        Inc dataDiskFree (JNum newByteLength);
        Dec numberOfObjects objs ]
      ++ (if truthy ingestSize
          then [Dec numberOfIngestedObjects objs; Dec dataIngested ingestSize]
          else [])
    else []
  else [].

Definition crrCacheToProm (crrResults : jsval) : list metric_call :=
  if truthy crrResults then
    [SetToCurrentTime lastReportTimestamp]
    ++ (let getObjectCount := get_prop crrResults "getObjectCount" in
        if truthy getObjectCount then
          [ SetTo numberOfBuckets
              (js_or (get_prop getObjectCount "buckets") (JNum 0));
            SetTo numberOfObjects
              (js_or (get_prop getObjectCount "objects") (JNum 0)) ]
        else [])
    ++ (let getDataDiskUsage := get_prop crrResults "getDataDiskUsage" in
        if truthy getDataDiskUsage then
          [ SetTo dataDiskAvailable
              (js_or (get_prop getDataDiskUsage "available") (JNum 0));
            SetTo dataDiskFree
              (js_or (get_prop getDataDiskUsage "free") (JNum 0));
            SetTo dataDiskTotal
              (js_or (get_prop getDataDiskUsage "total") (JNum 0)) ]
        else [])
  else [].







(** ** Monitoring: the HTTP route *)

Definition MethodNotAllowed : ArsenalError := mkError "MethodNotAllowed".
Definition BadRequest : ArsenalError := mkError "BadRequest".

(** What a request does to its response and its logger, in order.
    [ResEnd None] is [res.end] given a callback only. *)
Inductive http_event : Type :=
| ResWriteHead (statusCode : jsval) (headers : list (string * jsval))
| ResWrite (chunk : string)
| ResEnd (chunk : option string)
| LogEnd
| LogWarn (message : string) (err : ArsenalError).

Record IncomingMessage : Type := mkRequest {
  req_method : jsval;
  req_url : jsval
}.

Definition isInteger (v : jsval) : bool :=
  match v with JNum _ => true | _ => false end.

Section MonitoringRoute.

(** [error.code] of an error of the error table, [JSON.stringify], the
    text of [client.register.metrics()], [Buffer.byteLength] and
    [client.register.contentType]: all outside this file. *)
Variable code_of : ArsenalError -> jsval.
Variable stringify : jsval -> string.
Variable registerMetrics : string.
Variable byteLength : string -> Z.
Variable contentType : string.

Definition writeResponse (error : option ArsenalError) (results : jsval)
    (cb : option ArsenalError -> jsval -> list http_event)
  : list http_event :=
  let statusCode :=
    match error with
    | Some e => if isInteger (code_of e) then code_of e else JNum 500
    | None => JNum 200
    end in
  [ ResWriteHead statusCode [("Content-Type", JStr "application/json")];
    ResWrite (stringify results);
    ResEnd None ]
  ++ cb error results.

Definition routeHandler (req : IncomingMessage)
    (cb : option ArsenalError -> jsval -> list http_event)
  : list http_event :=
  if negb (strict_eq (req_method req) (JStr "GET"))
  then cb (Some BadRequest) (JArr [])
  else
    let promMetrics := registerMetrics in
    let contentLen := byteLength promMetrics in
    [ ResWriteHead (JNum 200)
        [("Content-Length", JNum contentLen);
         ("Content-Type", JStr contentType)];
      ResEnd (Some promMetrics) ].

Definition monitoringEndHandler (err : option ArsenalError) (results : jsval)
  : list http_event :=
  writeResponse err results
    (fun error _ =>
       match error with
       | Some e => [LogEnd; LogWarn "monitoring error" e]
       | None => [LogEnd]
       end).

Definition monitoringHandler (clientIP : jsval) (req : IncomingMessage)
  : list http_event :=
  if negb (strict_eq (req_method req) (JStr "GET"))
  then monitoringEndHandler (Some MethodNotAllowed) (JArr [])
  else if negb (strict_eq (req_url req) (JStr "/metrics"))
  then monitoringEndHandler (Some MethodNotAllowed) (JArr [])
  else routeHandler req monitoringEndHandler.

End MonitoringRoute.

(** ** Reading a trace *)

(** The metadata calls of a trace, by rank: put 0, get 1, delete 2. *)
Definition call_rank (e : event) : option nat :=
  match e with
  | EvPut _ _ _ _ => Some 0
  | EvGet _ _ _ => Some 1
  | EvDelete _ _ _ => Some 2
  | EvLog _ _ _ => None
  end.

Fixpoint call_ranks (evs : list event) : list nat :=
  match evs with
  | [] => []
  | e :: rest =>
      match call_rank e with
      | Some r => r :: call_ranks rest
      | None => call_ranks rest
      end
  end.

(** A version id codec for examples: ["enc-v1"] decodes to ["v1"], anything
    else is refused. *)
Definition sample_decode (v : jsval) : unit + jsval :=
  if strict_eq v (JStr "enc-v1") then inr (JStr "v1") else inl tt.

Definition sample_encode (v encodingType : jsval) : jsval :=
  match v with
  | JStr s => JStr ("enc-" ++ s)
  | _ => v
  end.

(** The metric a call is made on. *)
Definition call_metric (c : metric_call) : metric :=
  match c with
  | Inc m _ | Dec m _ | SetTo m _ | SetToCurrentTime m | Observe m _ _ => m
  end.

Definition is_writeHead (e : http_event) : bool :=
  match e with ResWriteHead _ _ => true | _ => false end.

Definition is_end (e : http_event) : bool :=
  match e with ResEnd _ => true | _ => false end.

(** A store of error codes for examples. *)
Definition sample_code_of (e : ArsenalError) : jsval :=
  if err_type e =? "MethodNotAllowed" then JNum 405
  else if err_type e =? "BadRequest" then JNum 400
  else JUndefined.

(** * Properties *)

(** ** Policy engine *)

(** Split on every test [processVersioningState] makes on the master. *)
Ltac split_master mst :=
  destruct (truthy (mst_isNullKey mst)) eqn:?,
           (truthy (mst_isNull mst)) eqn:?,
           (truthy (mst_versionId mst)) eqn:?,
           (truthy (mst_exists mst)) eqn:?,
           (truthy (mst_nullVersionId mst)) eqn:?,
           (truthy (mst_nullUploadId mst)) eqn:?.

Ltac policy mst :=
  unfold processVersioningState; split_master mst; simpl;
  repeat split; intros; try discriminate; try congruence; auto.

(** The four ways a master is "absent, a null version, or without a
    version id" all make the engine's first test succeed. *)
Lemma null_or_unversioned_test (mst : MasterState) :
  mst = empty_mst \/ truthy (mst_isNull mst) = true \/
  truthy (mst_isNullKey mst) = true \/ truthy (mst_versionId mst) = false ->
  truthy (mst_isNullKey mst) || truthy (mst_isNull mst)
    || negb (truthy (mst_versionId mst)) = true.
Proof.
  intros [-> | [H | [H | H]]]; [reflexivity | | | ]; rewrite H.
  - now rewrite orb_true_r.
  - reflexivity.
  - now rewrite orb_true_r.
Qed.

(** C1 (as amended).  For a master that is absent, a null version or
    without version id, under [Suspended] the engine returns put options
    with version id [""], [isNull] true and [dataToDelete] set to the
    master's own locations, and no store options; when the master is a
    legacy null version ([isNull]) it also schedules the deletion of the
    record [mst.versionId], without [deleteData]; when only the null-key
    form exists it schedules the deletion of ["null"]; when neither
    exists no delete step is scheduled. *)
Theorem suspended_null_master_overwrites (nonVersionedObjId : string)
    (mst : MasterState) :
  mst = empty_mst \/ truthy (mst_isNull mst) = true \/
  truthy (mst_isNullKey mst) = true \/ truthy (mst_versionId mst) = false ->
  let d := processVersioningState nonVersionedObjId mst (JStr "Suspended") in
  options d = mkOptions (JStr "") (JBool true) (mst_objLocation mst) JUndefined
  /\ storeOptions d = None
  /\ (truthy (mst_isNull mst) = true ->
      delOptions d =
        Some (mkDelOptions (mst_versionId mst) JUndefined JUndefined))
  /\ (truthy (mst_isNull mst) = false ->
      truthy (mst_isNullKey mst) = true ->
      delOptions d = Some (mkDelOptions (JStr "null") JUndefined JUndefined))
  /\ (truthy (mst_isNull mst) = false ->
      truthy (mst_isNullKey mst) = false ->
      delOptions d = None).
Proof.
  intros H. apply null_or_unversioned_test in H. revert H.
  policy mst.
Qed.


Lemma suspended_null_master_overwrites_witness :
  let d := processVersioningState "inf" legacy_null_master (JStr "Suspended") in
  options d = mkOptions (JStr "") (JBool true) (JArr [JStr "loc1"]) JUndefined
  /\ delOptions d = Some (mkDelOptions (JStr "v1") JUndefined JUndefined).
Proof.
  destruct (suspended_null_master_overwrites "inf" legacy_null_master)
    as (Ho & _ & Hd & _).
  - right; left; reflexivity.
  - split; [exact Ho | apply Hd; reflexivity].
Defined.

(** C1 as stated fails: with a legacy null master the put options do
    carry [dataToDelete], set from the master's locations. *)
Lemma suspended_legacy_null_sets_dataToDelete :
  ~ (forall (nonVersionedObjId : string) (mst : MasterState),
        mst = empty_mst \/ truthy (mst_isNull mst) = true \/
        truthy (mst_isNullKey mst) = true \/
        truthy (mst_versionId mst) = false ->
        let d := processVersioningState nonVersionedObjId mst
                   (JStr "Suspended") in
        opt_versionId (options d) = JStr ""
        /\ opt_isNull (options d) = JBool true
        /\ (truthy (mst_isNull mst) = true ->
            (exists del, delOptions d = Some del
                         /\ del_versionId del = mst_versionId mst)
            /\ opt_dataToDelete (options d) = JUndefined)
        /\ (truthy (mst_isNull mst) = false ->
            truthy (mst_isNullKey mst) = true ->
            exists del, delOptions d = Some del
                        /\ del_versionId del = JStr "null")
        /\ (truthy (mst_isNull mst) = false ->
            truthy (mst_isNullKey mst) = false ->
            delOptions d = None)).
Proof.
  intros H.
  destruct (H "inf" legacy_null_master) as (_ & _ & Hnull & _).
  - right; left; reflexivity.
  - destruct (Hnull eq_refl) as [_ Hdata]. discriminate Hdata.
Qed.

(** C3.  For a master that is absent, a null version or without version
    id, under [Enabled] the engine sets [versioning] on the put options;
    when a master record exists it returns store options with [isNullKey]
    true and the master's version id if the master is a null version, the
    reserved identifier otherwise (so an existing object from before
    versioning, with no version id, is stored under the reserved
    identifier); when no master record exists there are no store
    options. *)
Theorem enabled_null_master_snapshot (nonVersionedObjId : string)
    (mst : MasterState) :
  mst = empty_mst \/ truthy (mst_isNull mst) = true \/
  truthy (mst_isNullKey mst) = true \/ truthy (mst_versionId mst) = false ->
  let d := processVersioningState nonVersionedObjId mst (JStr "Enabled") in
  opt_versioning (options d) = JBool true
  /\ (truthy (mst_exists mst) = true ->
      (truthy (mst_isNull mst) = true \/ truthy (mst_isNullKey mst) = true ->
       storeOptions d = Some (mkStoreOptions (mst_versionId mst) (JBool true)))
      /\ (truthy (mst_isNull mst) = false ->
          truthy (mst_isNullKey mst) = false ->
          storeOptions d =
            Some (mkStoreOptions (JStr nonVersionedObjId) (JBool true))))
  /\ (truthy (mst_exists mst) = true ->
      truthy (mst_versionId mst) = false ->
      truthy (mst_isNull mst) = false ->
      truthy (mst_isNullKey mst) = false ->
      storeOptions d =
        Some (mkStoreOptions (JStr nonVersionedObjId) (JBool true)))
  /\ (truthy (mst_exists mst) = false -> storeOptions d = None).
Proof.
  intros H. apply null_or_unversioned_test in H. revert H.
  policy mst; intuition congruence.
Qed.


Lemma enabled_null_master_snapshot_witness :
  let d := processVersioningState "inf" pre_versioning_master
             (JStr "Enabled") in
  opt_versioning (options d) = JBool true
  /\ storeOptions d = Some (mkStoreOptions (JStr "inf") (JBool true)).
Proof.
  destruct (enabled_null_master_snapshot "inf" pre_versioning_master)
    as (Hv & _ & Hs & _).
  - right; right; right; reflexivity.
  - split; [exact Hv | apply Hs; reflexivity].
Defined.

(** C4.  For a real version (version id set, neither null flag) whose
    [nullVersionId] is set, under [Enabled] the engine returns store
    options [{versionId: nullVersionId, isNullKey: true}] together with
    delete options [{versionId: nullVersionId}]. *)
Theorem enabled_migrates_legacy_null (nonVersionedObjId : string)
    (mst : MasterState) :
  truthy (mst_versionId mst) = true ->
  truthy (mst_isNull mst) = false ->
  truthy (mst_isNullKey mst) = false ->
  truthy (mst_nullVersionId mst) = true ->
  let d := processVersioningState nonVersionedObjId mst (JStr "Enabled") in
  storeOptions d = Some (mkStoreOptions (mst_nullVersionId mst) (JBool true))
  /\ delOptions d =
       Some (mkDelOptions (mst_nullVersionId mst) JUndefined JUndefined).
Proof.
  unfold processVersioningState. intros -> -> -> ->. simpl. split; reflexivity.
Qed.


Lemma enabled_migrates_legacy_null_witness :
  let d := processVersioningState "inf"
             (versioned_master (JStr "v1") JUndefined) (JStr "Enabled") in
  storeOptions d = Some (mkStoreOptions (JStr "v1") (JBool true))
  /\ delOptions d = Some (mkDelOptions (JStr "v1") JUndefined JUndefined).
Proof.
  apply (enabled_migrates_legacy_null "inf"
           (versioned_master (JStr "v1") JUndefined)); reflexivity.
Defined.

(** C5.  For a real version, under [Suspended] the engine returns put
    options [{versionId: "", isNull: true}] without [dataToDelete]; with
    [nullVersionId] set the delete options are
    [{versionId: nullVersionId, deleteData: true}], with [replayId] equal
    to [nullUploadId] when that is set; without [nullVersionId] they are
    [{versionId: "null", deleteData: true}]. *)
Theorem suspended_real_version (nonVersionedObjId : string)
    (mst : MasterState) :
  truthy (mst_versionId mst) = true ->
  truthy (mst_isNull mst) = false ->
  truthy (mst_isNullKey mst) = false ->
  let d := processVersioningState nonVersionedObjId mst (JStr "Suspended") in
  options d = mkOptions (JStr "") (JBool true) JUndefined JUndefined
  /\ (truthy (mst_nullVersionId mst) = true ->
      (truthy (mst_nullUploadId mst) = true ->
       delOptions d =
         Some (mkDelOptions (mst_nullVersionId mst) (JBool true)
                 (mst_nullUploadId mst)))
      /\ (truthy (mst_nullUploadId mst) = false ->
          delOptions d =
            Some (mkDelOptions (mst_nullVersionId mst) (JBool true)
                    JUndefined)))
  /\ (truthy (mst_nullVersionId mst) = false ->
      delOptions d = Some (mkDelOptions (JStr "null") (JBool true) JUndefined)).
Proof.
  intros Hv Hn Hk. revert Hv Hn Hk. policy mst.
Qed.

Lemma suspended_real_version_witness :
  let d := processVersioningState "inf"
             (versioned_master (JStr "v1") (JStr "upload1"))
             (JStr "Suspended") in
  options d = mkOptions (JStr "") (JBool true) JUndefined JUndefined
  /\ delOptions d =
       Some (mkDelOptions (JStr "v1") (JBool true) (JStr "upload1")).
Proof.
  destruct (suspended_real_version "inf"
              (versioned_master (JStr "v1") (JStr "upload1")))
    as (Ho & Hd & _); try reflexivity.
  split; [exact Ho | apply Hd; reflexivity].
Defined.

(** C10.  Whatever the master and the status, when the decision has
    store options their [isNullKey] is true, the put options have
    [versioning] true, the status is not [Suspended], and delete options
    in the same decision have no [deleteData]. *)
Theorem store_only_when_versioning (nonVersionedObjId : string)
    (mst : MasterState) (vstat : jsval) (so : StoreOptions) :
  let d := processVersioningState nonVersionedObjId mst vstat in
  storeOptions d = Some so ->
  sto_isNullKey so = JBool true
  /\ opt_versioning (options d) = JBool true
  /\ strict_eq vstat (JStr "Suspended") = false
  /\ (forall del, delOptions d = Some del -> del_deleteData del = JUndefined).
Proof.
  unfold processVersioningState.
  destruct (strict_eq vstat (JStr "Suspended")) eqn:Hs;
    split_master mst; simpl; intros H; try discriminate H;
    injection H as <-; simpl; repeat split; intros del Hd;
    try discriminate Hd; injection Hd as <-; reflexivity.
Qed.

Lemma store_only_when_versioning_witness :
  let d := processVersioningState "inf"
             (versioned_master (JStr "v1") JUndefined) (JStr "Enabled") in
  opt_versioning (options d) = JBool true
  /\ (forall del, delOptions d = Some del -> del_deleteData del = JUndefined).
Proof.
  destruct (store_only_when_versioning "inf"
              (versioned_master (JStr "v1") JUndefined) (JStr "Enabled")
              (mkStoreOptions (JStr "v1") (JBool true)) eq_refl)
    as (_ & Hv & _ & Hd).
  split; [exact Hv | exact Hd].
Defined.

(** ** Master state extractor *)

(** C9 (as amended).  [getMasterState] is a total function.  Without a
    metadata record it returns the state with no field at all: [exists]
    is absent like every other field, and so reads as false.  With a
    record it sets [exists] to true, copies [versionId], [uploadId],
    [isNull], [isNullKey], [nullVersionId] and [nullUploadId] as they
    are, and gives [objLocation] as a sequence: the [location] itself
    when it is one, the one-element sequence of it when it is a single
    value, nothing when there is no location. *)
Theorem getMasterState_contract (objMD : jsval) :
  let mst := getMasterState objMD in
  (truthy objMD = false ->
   mst = empty_mst /\ truthy (mst_exists mst) = false)
  /\ (truthy objMD = true ->
      mst_exists mst = JBool true
      /\ mst_versionId mst = get_prop objMD "versionId"
      /\ mst_uploadId mst = get_prop objMD "uploadId"
      /\ mst_isNull mst = get_prop objMD "isNull"
      /\ mst_isNullKey mst = get_prop objMD "isNullKey"
      /\ mst_nullVersionId mst = get_prop objMD "nullVersionId"
      /\ mst_nullUploadId mst = get_prop objMD "nullUploadId"
      /\ (forall elems, get_prop objMD "location" = JArr elems ->
          mst_objLocation mst = JArr elems)
      /\ (truthy (get_prop objMD "location") = true ->
          isArray (get_prop objMD "location") = false ->
          mst_objLocation mst = JArr [get_prop objMD "location"])
      /\ (truthy (get_prop objMD "location") = false ->
          mst_objLocation mst = JUndefined)).
Proof.
  unfold getMasterState. split; intros ->; simpl.
  - split; reflexivity.
  - repeat split.
    + intros elems ->. reflexivity.
    + intros -> ->. reflexivity.
    + intros ->. reflexivity.
Qed.

Lemma getMasterState_contract_witness :
  getMasterState JUndefined = empty_mst
  /\ mst_objLocation
       (getMasterState (JObj [("versionId", JStr "v1");
                              ("location", JObj [("key", JStr "k1")])]))
     = JArr [JObj [("key", JStr "k1")]].
Proof.
  split.
  - apply (getMasterState_contract JUndefined). reflexivity.
  - apply (getMasterState_contract
             (JObj [("versionId", JStr "v1");
                    ("location", JObj [("key", JStr "k1")])]));
      reflexivity.
Defined.

(** C9 as stated fails: without a record the state is not
    [{exists: false}], its [exists] is absent too. *)
Lemma getMasterState_without_record_has_no_exists :
  ~ (forall objMD : jsval,
        truthy objMD = false ->
        getMasterState objMD =
          mkMasterState (JBool false) JUndefined JUndefined JUndefined
            JUndefined JUndefined JUndefined JUndefined).
Proof.
  intros H. specialize (H JUndefined eq_refl). discriminate H.
Qed.

(** ** Delete preprocessing *)

Ltac split_delete bucketMD objectMD reqVersionId :=
  unfold preprocessingVersioningDelete;
  destruct (truthy (getVersioningConfiguration bucketMD)) eqn:?,
           (truthy reqVersionId) eqn:?,
           (truthy (lookup "uploadId" objectMD)) eqn:?,
           (strict_eq reqVersionId (JStr "null")) eqn:?,
           (strict_eq (lookup "versionId" objectMD) JUndefined) eqn:?,
           (truthy (lookup "isNull" objectMD)) eqn:?;
  simpl.

(** C2 (as amended).  On a bucket with a versioning configuration and a
    requested version id ["null"]: when the object metadata has no
    [versionId] the decision has [deleteData] true and no version id;
    when it has one the decision targets that version id if the object
    is a null version and ["null"] otherwise. *)
Theorem delete_null_version_target (bucketMD : BucketInfo) (objectMD : obj) :
  truthy (getVersioningConfiguration bucketMD) = true ->
  let d := preprocessingVersioningDelete bucketMD objectMD (JStr "null") in
  dd_deleteData d = JBool true
  /\ (lookup "versionId" objectMD = JUndefined ->
      dd_versionId d = JUndefined)
  /\ (lookup "versionId" objectMD <> JUndefined ->
      truthy (lookup "isNull" objectMD) = true ->
      dd_versionId d = lookup "versionId" objectMD)
  /\ (lookup "versionId" objectMD <> JUndefined ->
      truthy (lookup "isNull" objectMD) = false ->
      dd_versionId d = JStr "null").
Proof.
  intros Hc.
  assert (Hu : forall v, strict_eq v JUndefined = true -> v = JUndefined)
    by (intros []; simpl; congruence).
  unfold preprocessingVersioningDelete. rewrite Hc. simpl.
  destruct (strict_eq (lookup "versionId" objectMD) JUndefined) eqn:E,
           (truthy (lookup "uploadId" objectMD)),
           (truthy (lookup "isNull" objectMD));
    simpl; repeat split; intros; try congruence;
    try (apply Hu in E; congruence);
    match goal with
    | H : lookup "versionId" objectMD = JUndefined |- _ =>
        rewrite H in E; discriminate E
    end.
Qed.


Lemma delete_null_version_target_witness :
  let d := preprocessingVersioningDelete versioned_bucket
             [("content-length", JNum 3)] (JStr "null") in
  dd_deleteData d = JBool true /\ dd_versionId d = JUndefined.
Proof.
  destruct (delete_null_version_target versioned_bucket
              [("content-length", JNum 3)] eq_refl) as (Hd & Hv & _).
  split; [exact Hd | apply Hv; reflexivity].
Defined.

(** C2 as stated fails: without a [versionId] in the object metadata the
    decision names no version id. *)
Lemma delete_null_without_versionId_untargeted :
  ~ (forall (bucketMD : BucketInfo) (objectMD : obj),
        truthy (getVersioningConfiguration bucketMD) = true ->
        lookup "versionId" objectMD = JUndefined ->
        let d := preprocessingVersioningDelete bucketMD objectMD
                   (JStr "null") in
        dd_versionId d = JStr "null" /\ dd_deleteData d = JBool true).
Proof.
  intros H.
  destruct (H versioned_bucket [("content-length", JNum 3)] eq_refl eq_refl)
    as [Hv _].
  discriminate Hv.
Qed.

(** C8.  [deleteData] is set to true exactly when the bucket has no
    versioning configuration or a version id is requested, and then the
    object's [uploadId], if any, is passed on as [replayId]; on a
    configured bucket with no requested version id, [deleteData] is not
    set and [isNull] is true. *)
Theorem delete_data_or_marker (bucketMD : BucketInfo) (objectMD : obj)
    (reqVersionId : jsval) :
  let d := preprocessingVersioningDelete bucketMD objectMD reqVersionId in
  (dd_deleteData d = JBool true <->
   truthy (getVersioningConfiguration bucketMD) = false
   \/ truthy reqVersionId = true)
  /\ (dd_deleteData d = JBool true ->
      (truthy (lookup "uploadId" objectMD) = true ->
       dd_replayId d = lookup "uploadId" objectMD)
      /\ (truthy (lookup "uploadId" objectMD) = false ->
          dd_replayId d = JUndefined))
  /\ (truthy (getVersioningConfiguration bucketMD) = true ->
      truthy reqVersionId = false ->
      dd_deleteData d = JUndefined /\ dd_replayId d = JUndefined
      /\ dd_isNull d = JBool true).
Proof.
  split_delete bucketMD objectMD reqVersionId;
    repeat split; intros; try discriminate; try tauto; auto;
    try (destruct H; discriminate).
Qed.

Lemma delete_data_or_marker_witness :
  dd_replayId (preprocessingVersioningDelete (mkBucketInfo JUndefined)
                 [("uploadId", JStr "upload1")] JUndefined) = JStr "upload1"
  /\ dd_isNull (preprocessingVersioningDelete versioned_bucket
                  [("uploadId", JStr "upload1")] JUndefined) = JBool true.
Proof.
  split.
  - apply (delete_data_or_marker (mkBucketInfo JUndefined)
             [("uploadId", JStr "upload1")] JUndefined); reflexivity.
  - apply (delete_data_or_marker versioned_bucket
             [("uploadId", JStr "upload1")] JUndefined); reflexivity.
Defined.

(** ** Write preprocessing orchestrator *)

Section OrchestratorProperties.

Variable nonVersionedObjId : string.
Variable Store : Type.
Variable metadata : MetadataWrapper Store.
Variables bucketName objectKey : string.

(** On a bucket with a versioning configuration the orchestrator is the
    series of its three steps, started on the engine's put options. *)
Lemma versioningPreprocessing_configured (bucketMD : BucketInfo)
    (objMD : jsval) :
  truthy (getVersioningConfiguration bucketMD) = true ->
  let mst := getMasterState objMD in
  let d := processVersioningState nonVersionedObjId mst
             (get_prop (getVersioningConfiguration bucketMD) "Status") in
  versioningPreprocessing nonVersionedObjId metadata bucketName bucketMD
    objectKey objMD
  = series
      [ storeVersion metadata bucketName objectKey objMD (storeOptions d);
        getNullVersionLocationsToDelete metadata bucketName objectKey mst
          (delOptions d);
        deleteNullVersion metadata bucketName objectKey (delOptions d) ]
      (options d).
Proof.
  intros Hc. unfold versioningPreprocessing. rewrite Hc. reflexivity.
Qed.

(** How a series of three tasks ends, by the outcome of each. *)
Lemma series_fail_first (t1 t2 t3 : task Store) (o o1 : Options)
    (w w1 : World Store) (e : ArsenalError) :
  t1 o w = ((Some e, o1), w1) ->
  series [t1; t2; t3] o w = ((Some e, o1), w1).
Proof. intros H. unfold series, bind. rewrite H. reflexivity. Qed.

Lemma series_fail_second (t1 t2 t3 : task Store) (o o1 o2 : Options)
    (w w1 w2 : World Store) (e : ArsenalError) :
  t1 o w = ((None, o1), w1) ->
  t2 o1 w1 = ((Some e, o2), w2) ->
  series [t1; t2; t3] o w = ((Some e, o2), w2).
Proof. intros H1 H2. unfold series, bind. rewrite H1, H2. reflexivity. Qed.

Lemma series_reach_third (t1 t2 t3 : task Store) (o o1 o2 : Options)
    (w w1 w2 : World Store) :
  t1 o w = ((None, o1), w1) ->
  t2 o1 w1 = ((None, o2), w2) ->
  series [t1; t2; t3] o w = t3 o2 w2.
Proof.
  intros H1 H2. unfold series, bind, ret. rewrite H1, H2.
  destruct (t3 o2 w2) as [[[e|] o3] w3]; reflexivity.
Qed.

Lemma trace_two (l : list event) (a b : event) :
  ((l ++ [a]) ++ [b] = l ++ [a; b])%list.
Proof. rewrite <- app_assoc. reflexivity. Qed.

(** C6.  On a bucket with a versioning configuration: when the store of
    the null-key copy fails, the orchestrator calls back with that very
    error right after the failed put (no read, no delete follows); when
    the steps before it went through and the delete of the stale record
    answers [NoSuchKey], the orchestrator calls back without error and
    with the put options; when that delete fails in any other way it
    calls back with [InternalError]. *)
Theorem store_failure_fatal_delete_race_benign (bucketMD : BucketInfo)
    (objMD : jsval) :
  truthy (getVersioningConfiguration bucketMD) = true ->
  let mst := getMasterState objMD in
  let d := processVersioningState nonVersionedObjId mst
             (get_prop (getVersioningConfiguration bucketMD) "Status") in
  let run := versioningPreprocessing nonVersionedObjId metadata bucketName
               bucketMD objectKey objMD in
  (forall so w e s1,
      storeOptions d = Some so ->
      let versionMD :=
        assign (assign [] (own_props objMD)) (storeOptions_props so) in
      putObjectMD metadata bucketName objectKey versionMD nullKeyParams (md w)
        = (Some e, s1) ->
      run w =
        ((Some e, options d),
         mkWorld s1
           (trace w ++
              [EvPut bucketName objectKey versionMD nullKeyParams;
               EvLog "debug"
                 "error from metadata storing null version as new version"
                 e])))
  /\ (forall del w o1 w1 o2 w2 e s3,
      delOptions d = Some del ->
      storeVersion metadata bucketName objectKey objMD (storeOptions d)
        (options d) w = ((None, o1), w1) ->
      getNullVersionLocationsToDelete metadata bucketName objectKey mst
        (delOptions d) o1 w1 = ((None, o2), w2) ->
      deleteObjectMD metadata bucketName objectKey del (md w2)
        = (Some e, s3) ->
      let w3 :=
        mkWorld s3
          (trace w2 ++
             [EvDelete bucketName objectKey del;
              EvLog "warn" "metadata error deleting null version" e]) in
      (is_NoSuchKey e = true -> run w = ((None, o2), w3))
      /\ (is_NoSuchKey e = false -> run w = ((Some InternalError, o2), w3))).
Proof.
  intros Hc mst d run. subst run.
  rewrite (versioningPreprocessing_configured bucketMD objMD Hc).
  fold mst. fold d. split.
  - intros so w e s1 Hso versionMD Hput.
    apply series_fail_first.
    rewrite Hso. unfold storeVersion, _storeNullVersionMD, bind, call, emit, ret.
    fold versionMD. rewrite Hput. simpl. rewrite trace_two. reflexivity.
  - intros del w o1 w1 o2 w2 e s3 Hdel H1 H2 Hdelete w3.
    rewrite (series_reach_third _ _ _ _ _ _ _ _ _ H1 H2).
    rewrite Hdel.
    unfold deleteNullVersion, _deleteNullVersionMD, bind, call, emit, ret.
    rewrite Hdelete. simpl. rewrite trace_two. fold w3.
    split; intros ->; reflexivity.
Qed.

(** C7.  The step that resolves the locations to delete does nothing
    unless the delete options ask for [deleteData].  When they do and
    name the master's own version id, it takes the master's locations and
    calls nothing; when they name another version it reads that version
    once: [NoSuchKey] counts as success with nothing to delete, any other
    error ends the step with that error, and a record gives its
    locations as a sequence.  Locations found are put in [dataToDelete]
    of the put options.  In the orchestrator, an error of this step is
    the error called back and no delete follows; otherwise the options
    of this step are the ones called back. *)
Theorem resolve_deletion_locations (mst : MasterState)
    (scheduled : option DelOptions) (o : Options) (w : World Store) :
  let step := getNullVersionLocationsToDelete metadata bucketName objectKey
                mst scheduled in
  (scheduled = None \/
   (exists del, scheduled = Some del /\ truthy (del_deleteData del) = false) ->
   step o w = ((None, o), w))
  /\ (forall del,
      scheduled = Some del ->
      truthy (del_deleteData del) = true ->
      (strict_eq (del_versionId del) (mst_versionId mst) = true ->
       step o w =
         ((None,
           if truthy (mst_objLocation mst)
           then set_dataToDelete o (mst_objLocation mst) else o),
          w))
      /\ (strict_eq (del_versionId del) (mst_versionId mst) = false ->
          forall r s1,
            getObjectMD metadata bucketName objectKey del (md w) = (r, s1) ->
            let read := EvGet bucketName objectKey del in
            let w1 := mkWorld s1 (trace w ++ [read]) in
            (forall e, r = inl e -> is_NoSuchKey e = true ->
                       step o w = ((None, o), w1))
            /\ (forall e, r = inl e -> is_NoSuchKey e = false ->
                  step o w =
                    ((Some e, o),
                     mkWorld s1
                       (trace w ++
                          [read;
                           EvLog "warn" "could not get null version metadata"
                             e])))
            /\ (forall versionMD, r = inr versionMD ->
                  truthy (lookup "location" versionMD) = false ->
                  step o w = ((None, o), w1))
            /\ (forall versionMD, r = inr versionMD ->
                  truthy (lookup "location" versionMD) = true ->
                  step o w =
                    ((None,
                      set_dataToDelete o
                        (if isArray (lookup "location" versionMD)
                         then lookup "location" versionMD
                         else JArr [lookup "location" versionMD])),
                     w1))))
  /\ (forall bucketMD objMD w0 o1 o2 w2 res,
      truthy (getVersioningConfiguration bucketMD) = true ->
      let d := processVersioningState nonVersionedObjId
                 (getMasterState objMD)
                 (get_prop (getVersioningConfiguration bucketMD) "Status") in
      storeVersion metadata bucketName objectKey objMD (storeOptions d)
        (options d) w0 = ((None, o1), w) ->
      getNullVersionLocationsToDelete metadata bucketName objectKey
        (getMasterState objMD) (delOptions d) o1 w = ((res, o2), w2) ->
      let run := versioningPreprocessing nonVersionedObjId metadata
                   bucketName bucketMD objectKey objMD in
      snd (fst (run w0)) = o2
      /\ (forall e, res = Some e -> run w0 = ((Some e, o2), w2))).
Proof.
  intros step. subst step. split; [| split].
  - intros [-> | (del & -> & Hd)]; simpl; [| rewrite Hd]; reflexivity.
  - intros del -> Hd. simpl. rewrite Hd. simpl.
    unfold _getNullVersionLocationsToDelete, bind, call, emit, ret.
    split.
    + intros ->. destruct (truthy (mst_objLocation mst)); reflexivity.
    + intros -> r s1 Hget. rewrite Hget.
      split; [| split; [| split]].
      * intros e -> ->. reflexivity.
      * intros e -> ->. simpl. rewrite trace_two. reflexivity.
      * intros versionMD -> ->. reflexivity.
      * intros versionMD -> ->. simpl.
        destruct (lookup "location" versionMD); reflexivity.
  - intros bucketMD objMD w0 o1 o2 w2 res Hc d H1 H2 run. subst run.
    rewrite (versioningPreprocessing_configured bucketMD objMD Hc).
    fold d. destruct res as [e|].
    + rewrite (series_fail_second _ _ _ _ _ _ _ _ _ _ H1 H2).
      split; [reflexivity |]. intros e' [= <-]. reflexivity.
    + rewrite (series_reach_third _ _ _ _ _ _ _ _ _ H1 H2).
      split; [| discriminate].
      unfold deleteNullVersion, _deleteNullVersionMD, bind, call, emit, ret.
      destruct (delOptions d) as [del|]; [| reflexivity].
      destruct (deleteObjectMD metadata bucketName objectKey del (md w2))
        as [[e|] s3]; [destruct (is_NoSuchKey e) |]; reflexivity.
Qed.

End OrchestratorProperties.

Lemma store_failure_fatal_delete_race_benign_witness :
  fst (fst (versioningPreprocessing "inf" unavailable_metadata "bucket"
              versioned_bucket "key" pre_versioning_object (mkWorld [] [])))
  = Some (mkError "ServiceUnavailable")
  /\ fst (versioningPreprocessing "inf" memory_metadata "bucket"
            suspended_bucket "key" versioned_object (mkWorld [] []))
     = (None, mkOptions (JStr "") (JBool true) JUndefined JUndefined).
Proof.
  split.
  - destruct (store_failure_fatal_delete_race_benign "inf" MemStore
                unavailable_metadata "bucket" "key" versioned_bucket
                pre_versioning_object eq_refl) as [Hstore _].
    rewrite (Hstore (mkStoreOptions (JStr "inf") (JBool true))
               (mkWorld [] []) (mkError "ServiceUnavailable") []
               eq_refl eq_refl).
    reflexivity.
  - destruct (store_failure_fatal_delete_race_benign "inf" MemStore
                memory_metadata "bucket" "key" suspended_bucket
                versioned_object eq_refl) as [_ Hdelete].
    destruct (Hdelete (mkDelOptions (JStr "null") (JBool true) JUndefined)
                (mkWorld [] [])
                (mkOptions (JStr "") (JBool true) JUndefined JUndefined)
                (mkWorld [] [])
                (mkOptions (JStr "") (JBool true) JUndefined JUndefined)
                (mkWorld []
                   [EvGet "bucket" "key"
                      (mkDelOptions (JStr "null") (JBool true) JUndefined)])
                (mkError "NoSuchKey") []
                eq_refl eq_refl eq_refl eq_refl) as [Hbenign _].
    rewrite (Hbenign eq_refl). reflexivity.
Defined.

Lemma resolve_deletion_locations_witness :
  let del := mkDelOptions (JStr "v1") (JBool true) JUndefined in
  let w := mkWorld [(JStr "v1", [("location", JStr "loc1")])] [] in
  getNullVersionLocationsToDelete memory_metadata "bucket" "key"
    (versioned_master (JStr "v1") JUndefined) (Some del)
    (mkOptions (JStr "") (JBool true) JUndefined JUndefined) w
  = ((None, mkOptions (JStr "") (JBool true) (JArr [JStr "loc1"]) JUndefined),
     mkWorld [(JStr "v1", [("location", JStr "loc1")])]
       [EvGet "bucket" "key" del]).
Proof.
  intros del w.
  destruct (resolve_deletion_locations "inf" MemStore memory_metadata
              "bucket" "key" (versioned_master (JStr "v1") JUndefined)
              (Some del)
              (mkOptions (JStr "") (JBool true) JUndefined JUndefined) w)
    as (_ & Hresolve & _).
  destruct (Hresolve del eq_refl eq_refl) as [_ Hother].
  destruct (Hother eq_refl (inr [("location", JStr "loc1")])
              [(JStr "v1", [("location", JStr "loc1")])] eq_refl)
    as (_ & _ & _ & Hfound).
  exact (Hfound [("location", JStr "loc1")] eq_refl eq_refl).
Defined.

(** * Further properties *)

(** ** Policy engine: invariants of the decision *)

Ltac split_status vstat :=
  destruct (strict_eq vstat (JStr "Suspended")) eqn:?.

(** The engine takes [dataToDelete] from the master or leaves it unset. *)
Lemma engine_dataToDelete (nonVersionedObjId : string) (mst : MasterState)
    (vstat : jsval) :
  let d := processVersioningState nonVersionedObjId mst vstat in
  opt_dataToDelete (options d) = mst_objLocation mst
  \/ opt_dataToDelete (options d) = JUndefined.
Proof.
  unfold processVersioningState. split_status vstat; split_master mst;
    simpl; auto.
Qed.

(** Store options only outside [Suspended]; delete options with
    [deleteData] only under [Suspended]. *)
Lemma engine_store_status (nonVersionedObjId : string) (mst : MasterState)
    (vstat : jsval) :
  let d := processVersioningState nonVersionedObjId mst vstat in
  (strict_eq vstat (JStr "Suspended") = true -> storeOptions d = None)
  /\ (strict_eq vstat (JStr "Suspended") = false ->
      forall del, delOptions d = Some del ->
                  truthy (del_deleteData del) = false).
Proof.
  unfold processVersioningState. split_status vstat; split_master mst;
    simpl; split; intros; try discriminate; try reflexivity;
    match goal with
    | H : Some _ = Some _ |- _ => injection H as <-; reflexivity
    end.
Qed.

(** X1.  The status alone decides how the new object is written.  Under
    [Suspended] the put options are [versionId: ""] with [isNull] true,
    never [versioning], and nothing is stored under the null key.
    Under any other status they are [versioning] true with no version
    id, no [isNull] and no [dataToDelete], and a record is scheduled for
    deletion only together with its copy to the null key. *)
Theorem status_decides_put_mode (nonVersionedObjId : string)
    (mst : MasterState) (vstat : jsval) :
  let d := processVersioningState nonVersionedObjId mst vstat in
  (strict_eq vstat (JStr "Suspended") = true ->
   opt_versionId (options d) = JStr ""
   /\ opt_isNull (options d) = JBool true
   /\ opt_versioning (options d) = JUndefined
   /\ storeOptions d = None)
  /\ (strict_eq vstat (JStr "Suspended") = false ->
      options d = mkOptions JUndefined JUndefined JUndefined (JBool true)
      /\ (forall del, delOptions d = Some del ->
            storeOptions d =
              Some (mkStoreOptions (del_versionId del) (JBool true)))).
Proof.
  unfold processVersioningState. split_status vstat; split_master mst;
    simpl; split; intros; try discriminate; repeat split;
    intros; try discriminate;
    match goal with
    | H : Some _ = Some _ |- _ => injection H as <-; reflexivity
    end.
Qed.

Lemma status_decides_put_mode_witness :
  options (processVersioningState "inf" legacy_null_master (JStr "Enabled"))
  = mkOptions JUndefined JUndefined JUndefined (JBool true)
  /\ storeOptions
       (processVersioningState "inf" legacy_null_master (JStr "Suspended"))
     = None.
Proof.
  split.
  - apply (status_decides_put_mode "inf" legacy_null_master (JStr "Enabled")).
    reflexivity.
  - apply (status_decides_put_mode "inf" legacy_null_master
             (JStr "Suspended")).
    reflexivity.
Defined.

(** X2.  Delete options ask for the data to be deleted exactly when the
    status is [Suspended] and the master is a real version (it has a
    version id and neither null flag); a [replayId] comes only with
    [deleteData] and is the master's [nullUploadId]. *)
Theorem deleteData_only_for_suspended_real_version
    (nonVersionedObjId : string) (mst : MasterState) (vstat : jsval)
    (del : DelOptions) :
  delOptions (processVersioningState nonVersionedObjId mst vstat) = Some del ->
  (del_deleteData del = JBool true <->
   strict_eq vstat (JStr "Suspended") = true
   /\ truthy (mst_versionId mst) = true
   /\ truthy (mst_isNull mst) = false
   /\ truthy (mst_isNullKey mst) = false)
  /\ (del_deleteData del = JBool true \/ del_deleteData del = JUndefined)
  /\ (del_replayId del <> JUndefined ->
      del_deleteData del = JBool true
      /\ del_replayId del = mst_nullUploadId mst
      /\ truthy (mst_nullUploadId mst) = true).
Proof.
  unfold processVersioningState. split_status vstat; split_master mst;
    simpl; intros H; try discriminate H; injection H as <-; simpl;
    repeat split; intros; auto; try discriminate; try tauto;
    try congruence;
    try (match goal with H : _ /\ _ |- _ => decompose [and] H end;
         discriminate).
Qed.

Lemma deleteData_only_for_suspended_real_version_witness :
  let del := mkDelOptions (JStr "v1") (JBool true) (JStr "upload1") in
  delOptions (processVersioningState "inf"
                (versioned_master (JStr "v1") (JStr "upload1"))
                (JStr "Suspended")) = Some del
  /\ del_replayId del = JStr "upload1".
Proof.
  intros del. split; [reflexivity |].
  destruct (deleteData_only_for_suspended_real_version "inf"
              (versioned_master (JStr "v1") (JStr "upload1"))
              (JStr "Suspended") del eq_refl) as (_ & _ & Hr).
  apply Hr. discriminate.
Defined.

(** X3.  When a decision both stores a copy under the null key and
    deletes a record, the two name the same version: the master's
    [nullVersionId], which is set. *)
Theorem store_and_delete_same_version (nonVersionedObjId : string)
    (mst : MasterState) (vstat : jsval) (so : StoreOptions)
    (del : DelOptions) :
  let d := processVersioningState nonVersionedObjId mst vstat in
  storeOptions d = Some so ->
  delOptions d = Some del ->
  sto_versionId so = del_versionId del
  /\ del_versionId del = mst_nullVersionId mst
  /\ truthy (mst_nullVersionId mst) = true.
Proof.
  unfold processVersioningState. split_status vstat; split_master mst;
    simpl; intros Hs Hd; try discriminate Hs; try discriminate Hd;
    injection Hs as <-; injection Hd as <-; simpl; auto.
Qed.

Lemma store_and_delete_same_version_witness :
  let d := processVersioningState "inf"
             (versioned_master (JStr "v1") JUndefined) (JStr "Enabled") in
  let so := mkStoreOptions (JStr "v1") (JBool true) in
  let del := mkDelOptions (JStr "v1") JUndefined JUndefined in
  storeOptions d = Some so /\ delOptions d = Some del
  /\ sto_versionId so = del_versionId del.
Proof.
  intros d so del. split; [reflexivity | split; [reflexivity |]].
  apply (store_and_delete_same_version "inf"
           (versioned_master (JStr "v1") JUndefined) (JStr "Enabled")
           so del eq_refl eq_refl).
Defined.

(** ** Delete preprocessing: invariants of the decision *)

(** X4.  A delete decision is either a data deletion or a delete marker,
    never both: when [isNull] is set neither [deleteData], [replayId] nor
    a version id is; a version id or a [replayId] only comes with
    [deleteData]; and on a bucket without versioning configuration the
    decision never names a version and never asks for a marker. *)
Theorem delete_decision_exclusive (bucketMD : BucketInfo) (objectMD : obj)
    (reqVersionId : jsval) :
  let d := preprocessingVersioningDelete bucketMD objectMD reqVersionId in
  (dd_isNull d <> JUndefined ->
   d = mkDeleteDecision JUndefined JUndefined JUndefined (JBool true))
  /\ (dd_versionId d <> JUndefined -> dd_deleteData d = JBool true)
  /\ (dd_replayId d <> JUndefined -> dd_deleteData d = JBool true)
  /\ (truthy (getVersioningConfiguration bucketMD) = false ->
      dd_deleteData d = JBool true
      /\ dd_versionId d = JUndefined /\ dd_isNull d = JUndefined).
Proof.
  split_delete bucketMD objectMD reqVersionId;
    repeat split; intros; try discriminate; try reflexivity;
    try (exfalso; auto; fail).
Qed.

Lemma delete_decision_exclusive_witness :
  preprocessingVersioningDelete versioned_bucket
    [("uploadId", JStr "upload1")] JUndefined
  = mkDeleteDecision JUndefined JUndefined JUndefined (JBool true).
Proof.
  apply (delete_decision_exclusive versioned_bucket
           [("uploadId", JStr "upload1")] JUndefined).
  discriminate.
Defined.

(** X5.  A requested version id other than ["null"] is targeted as it
    is on a bucket with a versioning configuration, whatever the object
    metadata says, and is ignored on a bucket without one. *)
Theorem delete_specific_version (bucketMD : BucketInfo) (objectMD : obj)
    (reqVersionId : jsval) :
  truthy reqVersionId = true ->
  strict_eq reqVersionId (JStr "null") = false ->
  let d := preprocessingVersioningDelete bucketMD objectMD reqVersionId in
  dd_deleteData d = JBool true
  /\ dd_isNull d = JUndefined
  /\ (truthy (getVersioningConfiguration bucketMD) = true ->
      dd_versionId d = reqVersionId)
  /\ (truthy (getVersioningConfiguration bucketMD) = false ->
      dd_versionId d = JUndefined).
Proof.
  intros Hr Hn. unfold preprocessingVersioningDelete. rewrite Hr, Hn.
  rewrite orb_true_r.
  destruct (truthy (getVersioningConfiguration bucketMD)),
           (truthy (lookup "uploadId" objectMD));
    simpl; repeat split; intros; try discriminate; reflexivity.
Qed.

Lemma delete_specific_version_witness :
  dd_versionId (preprocessingVersioningDelete versioned_bucket
                  [("versionId", JStr "v2"); ("isNull", JBool true)]
                  (JStr "v1")) = JStr "v1".
Proof.
  apply (delete_specific_version versioned_bucket
           [("versionId", JStr "v2"); ("isNull", JBool true)] (JStr "v1"));
    reflexivity.
Defined.

(** ** Request and response helpers *)

Section CodecProperties.

Variable CodecError : Type.
Variable decode : jsval -> CodecError + jsval.
Variable encode : jsval -> jsval -> jsval.
Variable versionIdEncodingType : jsval.

(** X6.  [decodeVersionId] fails exactly when the query carries a
    version id that is set, is not ["null"], and is refused by the codec;
    its error is then [InvalidArgument] with its own description, never
    the codec's error. *)
Theorem decodeVersionId_error (reqQuery : jsval) :
  (forall err, decodeVersionId decode reqQuery = inl err ->
     err = mkCustomized InvalidArgument "Invalid version id specified")
  /\ ((exists err, decodeVersionId decode reqQuery = inl err) <->
      truthy reqQuery = true
      /\ truthy (get_prop reqQuery "versionId") = true
      /\ strict_eq (get_prop reqQuery "versionId") (JStr "null") = false
      /\ exists cerr, decode (get_prop reqQuery "versionId") = inl cerr).
Proof.
  unfold decodeVersionId.
  destruct (truthy reqQuery) eqn:Hq; simpl;
    [| split; [intros err H; discriminate
              | split; [intros [err H]; discriminate
                       | intros (H & _); discriminate]]].
  destruct (truthy (get_prop reqQuery "versionId")) eqn:Hv; simpl;
    [| split; [intros err H; discriminate
              | split; [intros [err H]; discriminate
                       | intros (_ & H & _); discriminate]]].
  destruct (strict_eq (get_prop reqQuery "versionId") (JStr "null")) eqn:Hn;
    [split; [intros err H; discriminate
            | split; [intros [err H]; discriminate
                     | intros (_ & _ & H & _); discriminate]] |].
  destruct (decode (get_prop reqQuery "versionId")) as [cerr | v] eqn:Hd.
  - split; [intros err [= <-]; reflexivity |].
    split; [intros _; repeat split; eauto | intros _; eauto].
  - split; [intros err H; discriminate |].
    split; [intros [err H]; discriminate
           | intros (_ & _ & _ & [c Hc]); discriminate].
Qed.

(** X7.  The version id ["null"] is handed back as it is, whatever the
    codec would make of it. *)
Theorem decodeVersionId_null (reqQuery : jsval) :
  get_prop reqQuery "versionId" = JStr "null" ->
  decodeVersionId decode reqQuery = inr (JStr "null").
Proof.
  intros H. unfold decodeVersionId. rewrite H.
  destruct reqQuery; try discriminate H; reflexivity.
Qed.

(** X8.  A query that [checkQueryVersionId] lets through carries no
    version id for [decodeVersionId].  A query it refuses is read as
    carrying none only when its version id is present but falsy ([null],
    [""], [0], [false]), or is one the codec decodes to [undefined]. *)
Theorem checkQueryVersionId_decodeVersionId (query : jsval) :
  (checkQueryVersionId query = None ->
   decodeVersionId decode query = inr JUndefined)
  /\ (checkQueryVersionId query <> None ->
      decodeVersionId decode query = inr JUndefined ->
      get_prop query "versionId" <> JUndefined
      /\ (truthy (get_prop query "versionId") = false
          \/ (get_prop query "versionId" <> JStr "null"
              /\ decode (get_prop query "versionId") = inr JUndefined))).
Proof.
  assert (Hu : forall v, strict_eq v JUndefined = true -> v = JUndefined)
    by (intros []; simpl; congruence).
  unfold checkQueryVersionId, decodeVersionId. split.
  - destruct (truthy query) eqn:Hq; simpl; [| reflexivity].
    destruct (strict_eq (get_prop query "versionId") JUndefined) eqn:E;
      simpl; [| discriminate].
    apply Hu in E. rewrite E. reflexivity.
  - destruct (truthy query) eqn:Hq; simpl; [| congruence].
    destruct (strict_eq (get_prop query "versionId") JUndefined) eqn:E;
      simpl; [congruence |].
    intros _. split.
    + intros Hv. rewrite Hv in E. discriminate E.
    + destruct (truthy (get_prop query "versionId")); [| now left].
      right. simpl in H.
      destruct (strict_eq (get_prop query "versionId") (JStr "null")) eqn:En.
      * destruct (get_prop query "versionId"); discriminate.
      * split.
        -- intros Hv. rewrite Hv in En. discriminate En.
        -- destruct (decode (get_prop query "versionId")); congruence.
Qed.

(** X9.  The version id header follows the engine's view of the master.
    With a versioning configuration, an object whose master state passes
    the engine's test for a null or unversioned master gets the header
    ["null"], and every other object gets the codec's encoding of its own
    version id; without a configuration there is no header. *)
Theorem getVersionIdResHeader_follows_engine (verCfg : jsval)
    (objectMD : obj) :
  let mst := getMasterState (JObj objectMD) in
  let header :=
    getVersionIdResHeader encode versionIdEncodingType verCfg objectMD in
  (truthy verCfg = false -> header = JUndefined)
  /\ (truthy verCfg = true ->
      (truthy (mst_isNullKey mst) || truthy (mst_isNull mst)
         || negb (truthy (mst_versionId mst)) = true ->
       header = JStr "null")
      /\ (truthy (mst_isNullKey mst) || truthy (mst_isNull mst)
            || negb (truthy (mst_versionId mst)) = false ->
          header = encode (mst_versionId mst) versionIdEncodingType)).
Proof.
  unfold getVersionIdResHeader, getMasterState. simpl.
  destruct (truthy verCfg), (truthy (lookup "isNullKey" objectMD)),
    (truthy (lookup "isNull" objectMD)),
    (truthy (lookup "versionId" objectMD));
    simpl; repeat split; intros; try discriminate; reflexivity.
Qed.

End CodecProperties.

(** ** Write preprocessing orchestrator: what a run does *)

Section OrchestratorRuns.

Variable nonVersionedObjId : string.
Variable Store : Type.
Variable metadata : MetadataWrapper Store.
Variables bucketName objectKey : string.

Ltac step_run :=
  match goal with
  | |- context [putObjectMD ?m ?b ?k ?x ?p ?s] =>
      destruct (putObjectMD m b k x p s) as [[?|] ?] eqn:?
  | |- context [getObjectMD ?m ?b ?k ?x ?s] =>
      destruct (getObjectMD m b k x s) as [[?|?] ?] eqn:?
  | |- context [deleteObjectMD ?m ?b ?k ?x ?s] =>
      destruct (deleteObjectMD m b k x s) as [[?|] ?] eqn:?
  | |- context [if ?b then _ else _] => destruct b eqn:?
  end; simpl.

Ltac run_series so dl :=
  unfold series, storeVersion, getNullVersionLocationsToDelete,
    deleteNullVersion, _storeNullVersionMD, _getNullVersionLocationsToDelete,
    _deleteNullVersionMD, bind, ret, call, emit;
  destruct so as [?so|], dl as [?del|]; simpl; repeat step_run.

(** The three steps, on any decision: how the trace grows. *)
Lemma series_trace (objMD : jsval) (mst : MasterState)
    (so : option StoreOptions) (dl : option DelOptions) (o : Options)
    (w : World Store) :
  exists evs,
    trace (snd (series
                  [ storeVersion metadata bucketName objectKey objMD so;
                    getNullVersionLocationsToDelete metadata bucketName
                      objectKey mst dl;
                    deleteNullVersion metadata bucketName objectKey dl ]
                  o w)) = (trace w ++ evs)%list
    /\ StronglySorted lt (call_ranks evs)
    /\ (In 0 (call_ranks evs) -> so <> None)
    /\ (In 1 (call_ranks evs) ->
        exists del, dl = Some del /\ truthy (del_deleteData del) = true).
Proof.
  destruct w as [s t].
  run_series so dl.
  all: rewrite <- ?app_assoc; simpl.
  all: first
    [ exists []; split; [now rewrite app_nil_r |]
    | eexists; split; [reflexivity |] ].
  all: simpl; split; [repeat (constructor; try lia) |].
  all: split;
    [ intros Hin; first [discriminate | exfalso; simpl in Hin; intuition lia]
    | intros Hin;
      first [ exfalso; simpl in Hin; intuition lia
            | eexists; split; [reflexivity |];
              match goal with
              | H : negb (truthy _) = false |- _ =>
                  apply negb_false_iff in H; exact H
              end ] ].
Qed.

(** The three steps, on any decision: what they hand back. *)
Lemma series_result (objMD : jsval) (mst : MasterState)
    (so : option StoreOptions) (dl : option DelOptions) (o : Options)
    (w : World Store) :
  let r := series
             [ storeVersion metadata bucketName objectKey objMD so;
               getNullVersionLocationsToDelete metadata bucketName
                 objectKey mst dl;
               deleteNullVersion metadata bucketName objectKey dl ]
             o w in
  let o' := snd (fst r) in
  opt_versionId o' = opt_versionId o
  /\ opt_isNull o' = opt_isNull o
  /\ opt_versioning o' = opt_versioning o
  /\ (opt_dataToDelete o' = opt_dataToDelete o
      \/ opt_dataToDelete o' = mst_objLocation mst
      \/ isArray (opt_dataToDelete o') = true)
  /\ (forall e, fst (fst r) = Some e ->
        (e = InternalError
         /\ exists opts s e',
              fst (deleteObjectMD metadata bucketName objectKey opts s)
              = Some e'
              /\ is_NoSuchKey e' = false)
        \/ (exists m s, fst (putObjectMD metadata bucketName objectKey m
                               nullKeyParams s) = Some e)
        \/ (is_NoSuchKey e = false
            /\ exists opts s,
                 fst (getObjectMD metadata bucketName objectKey opts s)
                 = inl e)).
Proof.
  destruct w as [s t].
  run_series so dl.
  all: repeat split; auto.
  all: try (intros e He; discriminate He).
  all: try (right; right;
            match goal with
            | |- isArray (if isArray ?l then _ else _) = true =>
                destruct l; reflexivity
            end).
  all: intros e [= <-].
  all: first
    [ left; split; [reflexivity |];
      match goal with
      | H : deleteObjectMD _ _ _ ?x ?s = (Some ?e', _),
        Hn : is_NoSuchKey ?e' = false |- _ =>
          exists x, s, e'; rewrite H; split; [reflexivity | exact Hn]
      end
    | right; left;
      match goal with
      | H : putObjectMD _ _ _ ?m _ ?s = (Some _, _) |- _ =>
          exists m, s; rewrite H; reflexivity
      end
    | right; right;
      match goal with
      | H : negb (is_NoSuchKey _) = true |- _ =>
          apply negb_true_iff in H; split; [exact H |]
      end;
      match goal with
      | H : getObjectMD _ _ _ ?x ?s = (inl _, _) |- _ =>
          exists x, s; rewrite H; reflexivity
      end ].
Qed.

(** The locations of a master state are a sequence, or missing. *)
Lemma objLocation_normalized (objMD : jsval) :
  mst_objLocation (getMasterState objMD) = JUndefined
  \/ isArray (mst_objLocation (getMasterState objMD)) = true.
Proof.
  unfold getMasterState.
  destruct (truthy objMD); simpl; [| now left].
  destruct (truthy (get_prop objMD "location")); [| now left].
  right. destruct (get_prop objMD "location"); reflexivity.
Qed.

(** X10.  Whatever the bucket, the object and the store, a run of
    [versioningPreprocessing] calls the metadata store at most three
    times: at most one put, then at most one get, then at most one
    delete, in that order.  In particular a record is never deleted
    before its copy is stored. *)
Theorem versioningPreprocessing_call_order (bucketMD : BucketInfo)
    (objMD : jsval) (w : World Store) :
  exists evs,
    trace (snd (versioningPreprocessing nonVersionedObjId metadata
                  bucketName bucketMD objectKey objMD w))
    = (trace w ++ evs)%list
    /\ StronglySorted lt (call_ranks evs).
Proof.
  destruct (truthy (getVersioningConfiguration bucketMD)) eqn:Hc.
  - rewrite (versioningPreprocessing_configured nonVersionedObjId Store
               metadata bucketName objectKey bucketMD objMD Hc).
    destruct (series_trace objMD (getMasterState objMD)
                (storeOptions
                   (processVersioningState nonVersionedObjId
                      (getMasterState objMD)
                      (get_prop (getVersioningConfiguration bucketMD)
                         "Status")))
                (delOptions
                   (processVersioningState nonVersionedObjId
                      (getMasterState objMD)
                      (get_prop (getVersioningConfiguration bucketMD)
                         "Status")))
                (options
                   (processVersioningState nonVersionedObjId
                      (getMasterState objMD)
                      (get_prop (getVersioningConfiguration bucketMD)
                         "Status")))
                w) as (evs & Ht & Hs & _).
    exists evs. split; assumption.
  - unfold versioningPreprocessing. rewrite Hc. simpl.
    exists []. split; [now rewrite app_nil_r | constructor].
Qed.

(** X11.  On a bucket with a versioning configuration, a run under
    [Suspended] never puts a record under the null key, and a run under
    any other status never reads a record. *)
Theorem versioningPreprocessing_calls_by_status (bucketMD : BucketInfo)
    (objMD : jsval) (w : World Store) :
  truthy (getVersioningConfiguration bucketMD) = true ->
  let vstat := get_prop (getVersioningConfiguration bucketMD) "Status" in
  exists evs,
    trace (snd (versioningPreprocessing nonVersionedObjId metadata
                  bucketName bucketMD objectKey objMD w))
    = (trace w ++ evs)%list
    /\ (strict_eq vstat (JStr "Suspended") = true ->
        ~ In 0 (call_ranks evs))
    /\ (strict_eq vstat (JStr "Suspended") = false ->
        ~ In 1 (call_ranks evs)).
Proof.
  intros Hc vstat.
  rewrite (versioningPreprocessing_configured nonVersionedObjId Store
             metadata bucketName objectKey bucketMD objMD Hc).
  fold vstat.
  set (d := processVersioningState nonVersionedObjId (getMasterState objMD)
              vstat).
  destruct (series_trace objMD (getMasterState objMD) (storeOptions d)
              (delOptions d) (options d) w) as (evs & Ht & _ & Hput & Hget).
  destruct (engine_store_status nonVersionedObjId (getMasterState objMD)
              vstat) as [Hsusp Hother].
  exists evs. split; [exact Ht |]. split.
  - intros Hs Hin. apply (Hput Hin). apply Hsusp. exact Hs.
  - intros Hs Hin. destruct (Hget Hin) as (del & Hdel & Hdata).
    rewrite (Hother Hs del Hdel) in Hdata. discriminate Hdata.
Qed.

(** X12.  On a bucket without versioning configuration the run calls
    nothing and hands back the object's locations as [dataToDelete];
    when there is no object record the run calls nothing either and
    succeeds with nothing to delete, whatever the configuration. *)
Theorem versioningPreprocessing_no_call (bucketMD : BucketInfo)
    (objMD : jsval) (w : World Store) :
  let run := versioningPreprocessing nonVersionedObjId metadata bucketName
               bucketMD objectKey objMD in
  (truthy (getVersioningConfiguration bucketMD) = false ->
   run w =
     ((None,
       mkOptions JUndefined JUndefined
         (mst_objLocation (getMasterState objMD)) JUndefined),
      w))
  /\ (truthy objMD = false ->
      snd (run w) = w
      /\ fst (fst (run w)) = None
      /\ opt_dataToDelete (snd (fst (run w))) = JUndefined).
Proof.
  intros run. subst run. unfold versioningPreprocessing. split.
  - intros ->. reflexivity.
  - intros Hm. unfold getMasterState. rewrite Hm. simpl.
    destruct (truthy (getVersioningConfiguration bucketMD)); simpl;
      [| repeat split].
    unfold processVersioningState. simpl.
    destruct (strict_eq
                (get_prop (getVersioningConfiguration bucketMD) "Status")
                (JStr "Suspended")); repeat split.
Qed.

(** X13.  On a bucket with a versioning configuration, the options
    handed back, with or without an error, are the engine's put options
    except for [dataToDelete]: the run never changes [versionId],
    [isNull] or [versioning]. *)
Theorem versioningPreprocessing_keeps_put_mode (bucketMD : BucketInfo)
    (objMD : jsval) (w : World Store) :
  truthy (getVersioningConfiguration bucketMD) = true ->
  let d := processVersioningState nonVersionedObjId (getMasterState objMD)
             (get_prop (getVersioningConfiguration bucketMD) "Status") in
  let o := snd (fst (versioningPreprocessing nonVersionedObjId metadata
                       bucketName bucketMD objectKey objMD w)) in
  opt_versionId o = opt_versionId (options d)
  /\ opt_isNull o = opt_isNull (options d)
  /\ opt_versioning o = opt_versioning (options d).
Proof.
  intros Hc d o. subst o.
  rewrite (versioningPreprocessing_configured nonVersionedObjId Store
             metadata bucketName objectKey bucketMD objMD Hc).
  fold d.
  destruct (series_result objMD (getMasterState objMD) (storeOptions d)
              (delOptions d) (options d) w) as (H1 & H2 & H3 & _).
  repeat split; assumption.
Qed.

(** X14.  Whatever the bucket, the object and the store, the
    [dataToDelete] handed back is missing or is a sequence, never a
    single location. *)
Theorem versioningPreprocessing_dataToDelete_normalized
    (bucketMD : BucketInfo) (objMD : jsval) (w : World Store) :
  let o := snd (fst (versioningPreprocessing nonVersionedObjId metadata
                       bucketName bucketMD objectKey objMD w)) in
  opt_dataToDelete o = JUndefined \/ isArray (opt_dataToDelete o) = true.
Proof.
  intros o. subst o.
  destruct (truthy (getVersioningConfiguration bucketMD)) eqn:Hc.
  - rewrite (versioningPreprocessing_configured nonVersionedObjId Store
               metadata bucketName objectKey bucketMD objMD Hc).
    set (d := processVersioningState nonVersionedObjId (getMasterState objMD)
                (get_prop (getVersioningConfiguration bucketMD) "Status")).
    destruct (series_result objMD (getMasterState objMD) (storeOptions d)
                (delOptions d) (options d) w)
      as (_ & _ & _ & [-> | [-> | Ha]] & _).
    + destruct (engine_dataToDelete nonVersionedObjId (getMasterState objMD)
                  (get_prop (getVersioningConfiguration bucketMD) "Status"))
        as [E | E]; fold d in E; rewrite E;
        [apply objLocation_normalized | now left].
    + apply objLocation_normalized.
    + now right.
  - unfold versioningPreprocessing. rewrite Hc. simpl.
    apply objLocation_normalized.
Qed.

(** X15.  Where an error handed back comes from: it is [InternalError]
    after a delete that failed otherwise than with [NoSuchKey], or the
    error of a failed put, or the error of a failed get that is not
    [NoSuchKey].  A [NoSuchKey] from a get or a delete never reaches the
    caller. *)
Theorem versioningPreprocessing_error_provenance (bucketMD : BucketInfo)
    (objMD : jsval) (w : World Store) (e : ArsenalError) :
  fst (fst (versioningPreprocessing nonVersionedObjId metadata bucketName
              bucketMD objectKey objMD w)) = Some e ->
  (e = InternalError
   /\ exists opts s e',
        fst (deleteObjectMD metadata bucketName objectKey opts s) = Some e'
        /\ is_NoSuchKey e' = false)
  \/ (exists m s, fst (putObjectMD metadata bucketName objectKey m
                         nullKeyParams s) = Some e)
  \/ (is_NoSuchKey e = false
      /\ exists opts s,
           fst (getObjectMD metadata bucketName objectKey opts s) = inl e).
Proof.
  destruct (truthy (getVersioningConfiguration bucketMD)) eqn:Hc.
  - rewrite (versioningPreprocessing_configured nonVersionedObjId Store
               metadata bucketName objectKey bucketMD objMD Hc).
    set (d := processVersioningState nonVersionedObjId (getMasterState objMD)
                (get_prop (getVersioningConfiguration bucketMD) "Status")).
    destruct (series_result objMD (getMasterState objMD) (storeOptions d)
                (delOptions d) (options d) w) as (_ & _ & _ & _ & He).
    apply He.
  - unfold versioningPreprocessing. rewrite Hc. simpl. discriminate.
Qed.

(** X16.  A run succeeds whenever the store's puts succeed and its gets
    and deletes fail at most with [NoSuchKey]: records that other
    requests removed in the meantime never make the write fail. *)
Theorem versioningPreprocessing_tolerates_races (bucketMD : BucketInfo)
    (objMD : jsval) (w : World Store) :
  (forall b k m p s, fst (putObjectMD metadata b k m p s) = None) ->
  (forall b k opts s e,
     fst (getObjectMD metadata b k opts s) = inl e ->
     is_NoSuchKey e = true) ->
  (forall b k opts s e,
     fst (deleteObjectMD metadata b k opts s) = Some e ->
     is_NoSuchKey e = true) ->
  fst (fst (versioningPreprocessing nonVersionedObjId metadata bucketName
              bucketMD objectKey objMD w)) = None.
Proof.
  intros Hput Hget Hdel.
  destruct (fst (fst (versioningPreprocessing nonVersionedObjId metadata
                        bucketName bucketMD objectKey objMD w)))
    as [e |] eqn:He; [| reflexivity].
  exfalso.
  destruct (truthy (getVersioningConfiguration bucketMD)) eqn:Hc.
  - rewrite (versioningPreprocessing_configured nonVersionedObjId Store
               metadata bucketName objectKey bucketMD objMD Hc) in He.
    set (d := processVersioningState nonVersionedObjId (getMasterState objMD)
                (get_prop (getVersioningConfiguration bucketMD) "Status"))
      in He.
    destruct (series_result objMD (getMasterState objMD) (storeOptions d)
                (delOptions d) (options d) w) as (_ & _ & _ & _ & Hp).
    destruct (Hp e He)
      as [(_ & opts & s & e' & Hd & Hn)
         | [(m & s & Hm) | (Hn & opts & s & Hg)]].
    + rewrite (Hdel _ _ _ _ _ Hd) in Hn. discriminate Hn.
    + rewrite Hput in Hm. discriminate Hm.
    + rewrite (Hget _ _ _ _ _ Hg) in Hn. discriminate Hn.
  - unfold versioningPreprocessing in He. rewrite Hc in He. discriminate He.
Qed.

End OrchestratorRuns.

Lemma versioningPreprocessing_calls_by_status_witness :
  exists evs,
    trace (snd (versioningPreprocessing "inf" memory_metadata "bucket"
                  suspended_bucket "key" versioned_object (mkWorld [] [])))
    = ([] ++ evs)%list
    /\ ~ In 0 (call_ranks evs).
Proof.
  destruct (versioningPreprocessing_calls_by_status "inf" MemStore
              memory_metadata "bucket" "key" suspended_bucket
              versioned_object (mkWorld [] []) eq_refl)
    as (evs & Ht & Hs & _).
  exists evs. split; [exact Ht | apply Hs; reflexivity].
Defined.

Lemma versioningPreprocessing_no_call_witness :
  versioningPreprocessing "inf" unavailable_metadata "bucket"
    (mkBucketInfo JUndefined) "key" pre_versioning_object (mkWorld [] [])
  = ((None, mkOptions JUndefined JUndefined (JArr [JStr "loc1"]) JUndefined),
     mkWorld [] [])
  /\ snd (versioningPreprocessing "inf" unavailable_metadata "bucket"
            versioned_bucket "key" JNull (mkWorld [] []))
     = mkWorld [] [].
Proof.
  split.
  - apply (versioningPreprocessing_no_call "inf" MemStore
             unavailable_metadata "bucket" "key" (mkBucketInfo JUndefined)
             pre_versioning_object (mkWorld [] [])).
    reflexivity.
  - apply (versioningPreprocessing_no_call "inf" MemStore
             unavailable_metadata "bucket" "key" versioned_bucket JNull
             (mkWorld [] [])).
    reflexivity.
Defined.

Lemma versioningPreprocessing_keeps_put_mode_witness :
  opt_versionId
    (snd (fst (versioningPreprocessing "inf" unavailable_metadata "bucket"
                 suspended_bucket "key" versioned_object (mkWorld [] []))))
  = JStr "".
Proof.
  apply (versioningPreprocessing_keeps_put_mode "inf" MemStore
           unavailable_metadata "bucket" "key" suspended_bucket
           versioned_object (mkWorld [] []) eq_refl).
Defined.

Lemma versioningPreprocessing_error_provenance_witness :
  (mkError "ServiceUnavailable" = InternalError
   /\ exists opts s e',
        fst (deleteObjectMD unavailable_metadata "bucket" "key" opts s)
        = Some e'
        /\ is_NoSuchKey e' = false)
  \/ (exists m s, fst (putObjectMD unavailable_metadata "bucket" "key" m
                         nullKeyParams s)
                  = Some (mkError "ServiceUnavailable"))
  \/ (is_NoSuchKey (mkError "ServiceUnavailable") = false
      /\ exists opts s,
           fst (getObjectMD unavailable_metadata "bucket" "key" opts s)
           = inl (mkError "ServiceUnavailable")).
Proof.
  apply (versioningPreprocessing_error_provenance "inf" MemStore
           unavailable_metadata "bucket" "key" versioned_bucket
           pre_versioning_object (mkWorld [] [])
           (mkError "ServiceUnavailable")).
  reflexivity.
Defined.

Lemma versioningPreprocessing_tolerates_races_witness :
  fst (fst (versioningPreprocessing "inf" memory_metadata "bucket"
              suspended_bucket "key" versioned_object (mkWorld [] [])))
  = None.
Proof.
  apply (versioningPreprocessing_tolerates_races "inf" MemStore
           memory_metadata "bucket" "key" suspended_bucket versioned_object
           (mkWorld [] [])).
  - reflexivity.
  - intros b k opts s e. simpl.
    destruct (mem_find (del_versionId opts) s); simpl; intros [= <-].
    reflexivity.
  - intros b k opts s e. simpl.
    destruct (mem_find (del_versionId opts) s); simpl; intros [= <-].
    reflexivity.
Defined.

Lemma decodeVersionId_null_witness :
  decodeVersionId sample_decode (JObj [("versionId", JStr "null")])
  = inr (JStr "null").
Proof.
  apply (decodeVersionId_null unit sample_decode
           (JObj [("versionId", JStr "null")])).
  reflexivity.
Defined.

Lemma decodeVersionId_error_witness :
  decodeVersionId sample_decode (JObj [("versionId", JStr "garbage")])
  = inl (mkCustomized InvalidArgument "Invalid version id specified").
Proof.
  destruct (decodeVersionId sample_decode
              (JObj [("versionId", JStr "garbage")])) as [err | v] eqn:E.
  - f_equal.
    apply (decodeVersionId_error unit sample_decode
             (JObj [("versionId", JStr "garbage")])).
    exact E.
  - discriminate E.
Defined.

Lemma checkQueryVersionId_decodeVersionId_witness :
  decodeVersionId sample_decode (JObj [("prefix", JStr "a")])
  = inr JUndefined
  /\ get_prop (JObj [("versionId", JStr "")]) "versionId" <> JUndefined.
Proof.
  split.
  - apply (checkQueryVersionId_decodeVersionId unit sample_decode
             (JObj [("prefix", JStr "a")])).
    reflexivity.
  - apply (checkQueryVersionId_decodeVersionId unit sample_decode
             (JObj [("versionId", JStr "")])).
    + discriminate.
    + reflexivity.
Defined.

Lemma getVersionIdResHeader_follows_engine_witness :
  getVersionIdResHeader sample_encode (JNum 0)
    (JObj [("Status", JStr "Enabled")]) [("versionId", JStr "v1")]
  = JStr "enc-v1"
  /\ getVersionIdResHeader sample_encode (JNum 0)
       (JObj [("Status", JStr "Enabled")])
       [("versionId", JStr "v1"); ("isNull", JBool true)]
     = JStr "null".
Proof.
  split.
  - apply (getVersionIdResHeader_follows_engine sample_encode (JNum 0)
             (JObj [("Status", JStr "Enabled")]) [("versionId", JStr "v1")]);
      reflexivity.
  - apply (getVersionIdResHeader_follows_engine sample_encode (JNum 0)
             (JObj [("Status", JStr "Enabled")])
             [("versionId", JStr "v1"); ("isNull", JBool true)]);
      reflexivity.
Defined.

(** ** Monitoring: metrics *)




(** X18.  The ingestion gauges are touched only by a successful request
    that comes with an ingestion size. *)
Theorem promMetrics_ingest_only_when_sized
    (method bucketName code action : jsval)
    (newByteLength : Z) (oldByteLength : option Z)
    (isVersionedObj numOfObjectsRemoved ingestSize : jsval)
    (c : metric_call) :
  In c (promMetrics method bucketName code action newByteLength
          oldByteLength isVersionedObj numOfObjectsRemoved ingestSize) ->
  call_metric c = numberOfIngestedObjects \/ call_metric c = dataIngested ->
  truthy ingestSize = true /\ strict_eq code (JStr "200") = true.
Proof.
  unfold promMetrics.
  destruct (is_action action ["putObject"; "copyObject"; "putObjectPart"]),
    (is_action action ["createBucket"]), (is_action action ["getObject"]),
    (is_action action ["deleteBucket"; "deleteBucketWebsite"]),
    (is_action action
       ["deleteObject"; "abortMultipartUpload"; "multiObjectDelete"]),
    (strict_eq code (JStr "200")), (strict_eq code (JStr "204")),
    (truthy ingestSize);
    simpl; intros Hin Hm; auto;
    repeat match goal with
      | H : _ \/ _ |- _ => destruct H
      | H : False |- _ => destruct H
      | H : _ = c |- _ => subst c; simpl in *
      end; try discriminate.
Qed.

Lemma promMetrics_ingest_only_when_sized_witness :
  truthy (JNum 10) = true /\ strict_eq (JStr "200") (JStr "200") = true.
Proof.
  apply (promMetrics_ingest_only_when_sized (JStr "PUT") (JStr "bucket")
           (JStr "200") (JStr "putObject") 10 None JUndefined JUndefined
           (JNum 10) (Inc dataIngested (JNum 10))).
  - simpl. auto 10.
  - right. reflexivity.
Defined.



(** X20.  [crrCacheToProm] does nothing without results; with results
    it first stamps the report time, and every value it sets on a gauge
    comes from the results and is truthy, or is 0: a missing count is
    never handed to a gauge. *)
Theorem crrCacheToProm_sets_values_or_zero (crrResults : jsval) :
  (truthy crrResults = false -> crrCacheToProm crrResults = [])
  /\ (truthy crrResults = true ->
      exists rest,
        crrCacheToProm crrResults
        = SetToCurrentTime lastReportTimestamp :: rest
        /\ forall m v, In (SetTo m v) rest ->
                       truthy v = true \/ v = JNum 0).
Proof.
  unfold crrCacheToProm. split; intros ->; [reflexivity |].
  eexists. split; [reflexivity |].
  intros m v Hin. unfold js_or in Hin.
  destruct (truthy (get_prop crrResults "getObjectCount")),
    (truthy (get_prop crrResults "getDataDiskUsage")); simpl in Hin;
    repeat match goal with
      | H : _ \/ _ |- _ => destruct H
      | H : False |- _ => destruct H
      | H : SetTo _ _ = SetTo _ _ |- _ => injection H as _ <-
      end;
    match goal with
    | |- truthy (if truthy ?x then _ else _) = true \/ _ =>
        destruct (truthy x) eqn:E; [left; exact E | right; reflexivity]
    end.
Qed.

Lemma crrCacheToProm_sets_values_or_zero_witness :
  crrCacheToProm JNull = []
  /\ exists rest,
       crrCacheToProm (JObj [("getObjectCount", JObj [("buckets", JNum 2)])])
       = SetToCurrentTime lastReportTimestamp :: rest.
Proof.
  split.
  - apply (crrCacheToProm_sets_values_or_zero JNull). reflexivity.
  - destruct (crrCacheToProm_sets_values_or_zero
                (JObj [("getObjectCount", JObj [("buckets", JNum 2)])]))
      as [_ H].
    destruct (H eq_refl) as (rest & Hr & _).
    exists rest. exact Hr.
Defined.

(** ** Monitoring: the HTTP route *)

Section RouteProperties.

Variable code_of : ArsenalError -> jsval.
Variable stringify : jsval -> string.
Variable registerMetrics : string.
Variable byteLength : string -> Z.
Variable contentType : string.

(** X21.  The monitoring route serves the metrics to [GET /metrics] and
    to nothing else.  That request gets status 200 with the metrics
    text and its byte length, and its log is never ended.  Every other
    request gets the [MethodNotAllowed] error: its code as status when
    the code is an integer, 500 otherwise, the body of an empty result
    list, and a warning in the log.  [BadRequest] is never answered. *)
Theorem monitoringHandler_serves_get_metrics_only (clientIP : jsval)
    (req : IncomingMessage) :
  let response := monitoringHandler code_of stringify registerMetrics
                    byteLength contentType clientIP req in
  (strict_eq (req_method req) (JStr "GET") = true ->
   strict_eq (req_url req) (JStr "/metrics") = true ->
   response =
     [ ResWriteHead (JNum 200)
         [("Content-Length", JNum (byteLength registerMetrics));
          ("Content-Type", JStr contentType)];
       ResEnd (Some registerMetrics) ])
  /\ (strict_eq (req_method req) (JStr "GET") = false
      \/ strict_eq (req_url req) (JStr "/metrics") = false ->
      response =
        [ ResWriteHead
            (if isInteger (code_of MethodNotAllowed)
             then code_of MethodNotAllowed else JNum 500)
            [("Content-Type", JStr "application/json")];
          ResWrite (stringify (JArr []));
          ResEnd None;
          LogEnd;
          LogWarn "monitoring error" MethodNotAllowed ]).
Proof.
  unfold monitoringHandler, routeHandler, monitoringEndHandler, writeResponse.
  destruct (strict_eq (req_method req) (JStr "GET")),
    (strict_eq (req_url req) (JStr "/metrics")); simpl; split; intros;
    try reflexivity; try discriminate;
    match goal with H : _ \/ _ |- _ => destruct H; discriminate end.
Qed.

(** X22.  Every response of the monitoring route is well formed: it
    starts with its one status line, the status is an integer, and it is
    ended exactly once, by its last write. *)
Theorem monitoringHandler_response_well_formed (clientIP : jsval)
    (req : IncomingMessage) :
  let response := monitoringHandler code_of stringify registerMetrics
                    byteLength contentType clientIP req in
  (exists n headers rest,
      response = ResWriteHead (JNum n) headers :: rest
      /\ filter is_writeHead rest = [])
  /\ length (filter is_end response) = 1.
Proof.
  unfold monitoringHandler, routeHandler, monitoringEndHandler, writeResponse.
  destruct (strict_eq (req_method req) (JStr "GET")),
    (strict_eq (req_url req) (JStr "/metrics")); simpl;
    (split; [| reflexivity]);
    try (do 3 eexists; split; reflexivity);
    destruct (code_of MethodNotAllowed); simpl;
    do 3 eexists; split; reflexivity.
Qed.


End RouteProperties.

Lemma monitoringHandler_serves_get_metrics_only_witness :
  monitoringHandler sample_code_of (fun _ => "[]") "metrics 1" (fun _ => 9%Z)
    "text/plain" (JStr "127.0.0.1")
    (mkRequest (JStr "POST") (JStr "/metrics"))
  = [ ResWriteHead (JNum 405) [("Content-Type", JStr "application/json")];
      ResWrite "[]"; ResEnd None; LogEnd;
      LogWarn "monitoring error" MethodNotAllowed ].
Proof.
  apply (monitoringHandler_serves_get_metrics_only sample_code_of
           (fun _ => "[]") "metrics 1" (fun _ => 9%Z) "text/plain"
           (JStr "127.0.0.1") (mkRequest (JStr "POST") (JStr "/metrics"))).
  left. reflexivity.
Defined.

